(** * User service: authentication, authorization and the generic CRUD layer

    A shallow embedding of the Python sources

    - [app/core/security.py]      password hashing and JWT helpers,
    - [app/crud/base.py]          the generic repository [CRUDBase],
    - [app/crud/crud_user.py]     the user repository [CRUDUser],
    - [app/api/deps.py]           the permission dependencies,
    - [app/api/v1/endpoints/users.py]  the route handlers,
    - [app/schemas/user.py], [app/models/user.py], [app/db/base_class.py],
    - [app/main.py]               the first-superuser bootstrap.

    Python objects are attribute dictionaries ([gmap string pyval]), the
    [users] table is the list of its rows, raised exceptions are the
    [Raise] branch of [result], and a handler that talks to the session is
    a function from the table to an outcome and the table afterwards.
    The two third-party libraries (passlib's [CryptContext] and
    python-jose's [jwt]) are an interface record [Libs]; what is proved
    about the code holds for every implementation of it, and the
    assumptions made on it are spelled out where a theorem needs one. *)

From Stdlib Require Import ZArith Ascii.
From stdpp Require Import base strings gmap list fin_maps pretty.

Open Scope Z_scope.

(* ===================================================================== *)
(** ** Python values and exceptions                                       *)
(* ===================================================================== *)

(** The values that occur in attributes, dictionaries and JWT claims.
    A [datetime] is its number of microseconds since the epoch. *)
Inductive pyval :=
  | VNone
  | VBool (b : bool)
  | VInt (z : Z)
  | VStr (s : string)
  | VDateTime (t : Z).

#[global] Instance pyval_eq_dec : EqDecision pyval.
Proof. solve_decision. Defined.

(** [bool(v)], as used by [if v] and [not v]. *)
Definition truthy (v : pyval) : bool :=
  match v with
  | VNone => false
  | VBool b => b
  | VInt z => negb (z =? 0)
  | VStr s => negb (bool_decide (s = EmptyString))
  | VDateTime _ => true
  end.

(** [a == b] on values; a [bool] compares as the integer it is. *)
Definition py_eq (a b : pyval) : bool :=
  match a, b with
  | VBool x, VInt z | VInt z, VBool x => (if x then 1 else 0) =? z
  | _, _ => bool_decide (a = b)
  end.

(** A [dict] with string keys; also the attributes of an object. *)
Abbreviation dict := (gmap string pyval).

(** [getattr(obj, name)]: a mapped column that was never assigned reads
    as [None]. *)
Definition getattr (obj : dict) (name : string) : pyval :=
  default VNone (obj !! name).

(** [setattr(obj, name, value)]. *)
Definition setattr (obj : dict) (name : string) (value : pyval) : dict :=
  <[name := value]> obj.

(** Exception classes that the modelled code raises, catches or lets
    through. *)
Inductive exn :=
  | HTTPException (status_code : Z) (detail : string)
  | IntegrityError
  | UnknownHashError
  | TypeError
  | ValueError
  | JWTError
  | ExpiredSignatureError
  | JWTClaimsError.

#[global] Instance exn_eq_dec : EqDecision exn.
Proof. solve_decision. Defined.

(** [isinstance(e, jose.JWTError)]: the two claim errors are subclasses. *)
Definition is_JWTError (e : exn) : bool :=
  match e with
  | JWTError | ExpiredSignatureError | JWTClaimsError => true
  | _ => false
  end.

Definition HTTP_400_BAD_REQUEST : Z := 400.
Definition HTTP_403_FORBIDDEN : Z := 403.
Definition HTTP_404_NOT_FOUND : Z := 404.

(** The outcome of a call: a returned value or a raised exception. *)
Inductive result (A : Type) :=
  | Ret (a : A)
  | Raise (e : exn).
Arguments Ret {A} a.
Arguments Raise {A} e.

(** Whether a call returned. *)
Definition is_Ret {A} (r : result A) : bool :=
  match r with
  | Ret _ => true
  | Raise _ => false
  end.

#[global] Instance result_ret : MRet result := @Ret.
#[global] Instance result_bind : MBind result := fun A B f m =>
  match m with
  | Ret a => f a
  | Raise e => Raise e
  end.

(* ===================================================================== *)
(** ** Settings ([app/core/config.py])                                    *)
(* ===================================================================== *)

Record Settings := {
  SECRET_KEY : string;
  ALGORITHM : string;
  ACCESS_TOKEN_EXPIRE_MINUTES : Z
}.

(** The defaults of the [Settings] class. *)
Definition default_settings : Settings := {|
  SECRET_KEY := "your-super-secret-key-change-this-in-production";
  ALGORITHM := "HS256";
  ACCESS_TOKEN_EXPIRE_MINUTES := 43200
|}.

(** [timedelta(minutes=m)] and [timedelta(hours=h)] in microseconds. *)
Definition timedelta_minutes (m : Z) : Z := m * 60000000.
Definition timedelta_hours (h : Z) : Z := h * 3600000000.

(* ===================================================================== *)
(** ** The third-party libraries                                          *)
(* ===================================================================== *)

(** [pwd_context.verify(secret, hash)] and [pwd_context.hash(secret)] of
    passlib (the salt drawn by [hash] is an explicit argument),
    [jwt.encode(claims, key, algorithm)] and
    [jwt.decode(token, key, algorithms)] of python-jose (the clock read by
    [decode] is an explicit argument), and [str] on a [datetime]. *)
Record Libs := {
  pwd_verify : string -> pyval -> result bool;
  pwd_hash : string -> pyval -> result string;
  jwt_encode : dict -> string -> string -> result string;
  jwt_decode : Z -> string -> string -> list string -> result dict;
  datetime_str : Z -> string
}.

(** [str(v)]. *)
Definition py_str (lib : Libs) (v : pyval) : string :=
  match v with
  | VNone => "None"
  | VBool true => "True"
  | VBool false => "False"
  | VInt z => pretty z
  | VStr s => s
  | VDateTime t => datetime_str lib t
  end.

(** The claims a token decodes to: python-jose stores a [datetime] claim
    as whole seconds. *)
Definition unix_seconds (t : Z) : Z := t `div` 1000000.

(* ===================================================================== *)
(** ** [app/core/security.py]                                             *)
(* ===================================================================== *)

(** The [expire] that [create_access_token] computes at time [utcnow]: a
    zero [timedelta] is falsy and selects the default. *)
Definition token_expiry (settings : Settings) (utcnow : Z)
    (expires_delta : option Z) : Z :=
  match expires_delta with
  | Some delta =>
      if negb (delta =? 0) then utcnow + delta
      else utcnow + timedelta_minutes (ACCESS_TOKEN_EXPIRE_MINUTES settings)
  | None => utcnow + timedelta_minutes (ACCESS_TOKEN_EXPIRE_MINUTES settings)
  end.

Section Security.
Variable lib : Libs.
Variable settings : Settings.

(** [verify_password(plain_password, hashed_password)]: the call into the
    hashing context and nothing else; no exception is caught. *)
Definition verify_password (plain_password : string) (hashed_password : pyval)
  : result bool :=
  pwd_verify lib plain_password hashed_password.

(** [get_password_hash(password)]. *)
Definition get_password_hash (salt : string) (password : pyval) : result string :=
  pwd_hash lib salt password.

(** [create_access_token(subject, expires_delta=None)], called at time
    [utcnow]. *)
Definition create_access_token (utcnow : Z) (subject : pyval)
    (expires_delta : option Z) : result string :=
  let expire := token_expiry settings utcnow expires_delta in
  let to_encode : dict :=
    <["exp" := VDateTime expire]> (<["sub" := VStr (py_str lib subject)]> ∅) in
  jwt_encode lib to_encode (SECRET_KEY settings) (ALGORITHM settings).

(** [decode_access_token(token)], called at time [utcnow]:
    [except jwt.JWTError: return None]; any other exception propagates. *)
Definition decode_access_token (utcnow : Z) (token : string)
  : result (option dict) :=
  match jwt_decode lib utcnow token (SECRET_KEY settings) [ALGORITHM settings] with
  | Ret payload => Ret (Some payload)
  | Raise e => if is_JWTError e then Ret None else Raise e
  end.

(** [generate_password_reset_token(email)]. *)
Definition generate_password_reset_token (utcnow : Z) (email : string)
  : result string :=
  create_access_token utcnow (VStr email) (Some (timedelta_hours 1)).

(** [verify_password_reset_token(token)]: an empty payload is falsy. *)
Definition verify_password_reset_token (utcnow : Z) (token : string)
  : result pyval :=
  payload ← decode_access_token utcnow token;
  match payload with
  | Some p => if bool_decide (p = ∅) then Ret VNone else Ret (getattr p "sub")
  | None => Ret VNone
  end.
End Security.

(* ===================================================================== *)
(** ** [app/schemas/user.py]                                              *)
(* ===================================================================== *)

(** [UserUpdate]: every field is [Optional] with default [None]. The outer
    [option] records whether the field was set by the request (pydantic's
    [model_fields_set]); the inner one is the value, [None] being an
    explicit null. *)
Record UserUpdate := {
  uu_email : option (option string);
  uu_password : option (option string);
  uu_full_name : option (option string);
  uu_is_active : option (option bool);
  uu_is_superuser : option (option bool)
}.

(** A [str] is held as its UTF-8 bytes. A byte [10xxxxxx] continues the
    character begun before it. *)
Definition utf8_continuation (c : ascii) : bool :=
  match c with
  | Ascii _ _ _ _ _ _ false true => true
  | _ => false
  end.

(** [len(s)]: the number of characters, each counted at its first byte. *)
Fixpoint py_len (s : string) : nat :=
  match s with
  | EmptyString => 0
  | String c rest => (if utf8_continuation c then 0 else 1) + py_len rest
  end.

(** The field constraints of [UserUpdate] ([min_length], [max_length], in
    characters) on a value that is not null; [is_email] stands for the
    [EmailStr] check. *)
Definition length_between (lo hi : nat) (s : string) : bool :=
  bool_decide (lo ≤ py_len s ≤ hi)%nat.

Definition field_ok {A} (ok : A -> bool) (fld : option (option A)) : bool :=
  match fld with
  | Some (Some a) => ok a
  | _ => true
  end.

Definition UserUpdate_valid (is_email : string -> bool) (u : UserUpdate) : bool :=
  field_ok is_email (uu_email u)
  && field_ok (length_between 8 100) (uu_password u)
  && field_ok (length_between 0 255) (uu_full_name u).

(** One entry of [model_dump(exclude_unset=True)]: a field that was set is
    dumped, null included; a field that was not set is left out. *)
Definition dump_field {A} (name : string) (inj : A -> pyval)
    (fld : option (option A)) (d : dict) : dict :=
  match fld with
  | Some (Some a) => <[name := inj a]> d
  | Some None => <[name := VNone]> d
  | None => d
  end.

(** [obj_in.model_dump(exclude_unset=True)] for a [UserUpdate]. *)
Definition UserUpdate_model_dump_exclude_unset (u : UserUpdate) : dict :=
  dump_field "email" VStr (uu_email u)
    (dump_field "password" VStr (uu_password u)
      (dump_field "full_name" VStr (uu_full_name u)
        (dump_field "is_active" VBool (uu_is_active u)
          (dump_field "is_superuser" VBool (uu_is_superuser u) ∅)))).

(** [Token], the response of the login route. *)
Record Token := {
  access_token : string;
  token_type : string
}.

(* ===================================================================== *)
(** ** [app/db/base_class.py], [app/models/user.py] and the session       *)
(* ===================================================================== *)

(** A mapped column with the two constraints the models declare. *)
Record Column := {
  col_name : string;
  col_nullable : bool;
  col_unique : bool
}.

(** [Base]: [id] (primary key), [created_at], [updated_at]. *)
Definition Base_columns : list Column := [
  {| col_name := "id"; col_nullable := false; col_unique := true |};
  {| col_name := "created_at"; col_nullable := false; col_unique := false |};
  {| col_name := "updated_at"; col_nullable := false; col_unique := false |}
].

(** [User(Base)]. *)
Definition User_columns : list Column := Base_columns ++ [
  {| col_name := "email"; col_nullable := false; col_unique := true |};
  {| col_name := "hashed_password"; col_nullable := false; col_unique := false |};
  {| col_name := "full_name"; col_nullable := true; col_unique := false |};
  {| col_name := "is_active"; col_nullable := false; col_unique := false |};
  {| col_name := "is_superuser"; col_nullable := false; col_unique := false |}
].

(** A row of a table, and a persistent object loaded from it. *)
Abbreviation Entity := (gmap string pyval).

(** NOT NULL: a column that is not nullable holds a value in [row]. *)
Definition not_null_ok (cols : list Column) (row : Entity) : bool :=
  forallb (fun c => col_nullable c || negb (bool_decide (getattr row (col_name c) = VNone))) cols.

(** UNIQUE: no two rows agree on a unique column (nulls are exempt). *)
Definition unique_ok (cols : list Column) (rows : list Entity) : bool :=
  forallb (fun c =>
    negb (col_unique c)
    || bool_decide (NoDup (filter (fun v => v ≠ VNone)
                                  ((fun row => getattr row (col_name c)) <$> rows))))
    cols.

(** What the database checks when a transaction commits. *)
Definition constraints_ok (cols : list Column) (rows : list Entity) : bool :=
  forallb (not_null_ok cols) rows && unique_ok cols rows.

(** [UPDATE ... WHERE id = pk]. *)
Definition replace_row (pk : option pyval) (new : Entity) (rows : list Entity)
  : list Entity :=
  (fun row => if decide (row !! "id" = pk) then new else row) <$> rows.

(** [db.add(db_obj); db.commit(); db.refresh(db_obj)] for a persistent
    object loaded as [old] and now holding [new], at time [utcnow].
    Nothing is written when no attribute changed. Otherwise the row is
    updated, [updated_at] takes [onupdate=datetime.utcnow] unless the
    change sets it, and a violated constraint raises [IntegrityError]
    with the table as it was. *)
Definition commit_update (cols : list Column) (utcnow : Z)
    (old new : Entity) (rows : list Entity) : result Entity * list Entity :=
  if decide (new = old) then (Ret new, rows)
  else
    let stored :=
      if decide (new !! "updated_at" = old !! "updated_at")
      then <["updated_at" := VDateTime utcnow]> new
      else new in
    let rows' := replace_row (old !! "id") stored rows in
    if constraints_ok cols rows' then (Ret stored, rows')
    else (Raise IntegrityError, rows).

(** [DELETE ... WHERE id = pk]. *)
Definition delete_row (pk : Z) (rows : list Entity) : list Entity :=
  filter (fun row => row !! "id" ≠ Some (VInt pk)) rows.

(* ===================================================================== *)
(** ** [app/crud/base.py]                                                 *)
(* ===================================================================== *)

Section CRUDBase.
Variable model : list Column.
Variable UpdateSchemaType : Type.
Variable model_dump_exclude_unset : UpdateSchemaType -> dict.

(** [get(db, id)]: [filter(model.id == id).first()]. *)
Definition CRUDBase_get (db : list Entity) (id : Z) : option Entity :=
  List.find (fun row => bool_decide (row !! "id" = Some (VInt id))) db.

(** The loop of [update]:
    [for field in obj_data: if field in update_data: setattr(...)]. *)
Fixpoint update_fields (obj_data : list string) (update_data : dict)
    (db_obj : Entity) : Entity :=
  match obj_data with
  | [] => db_obj
  | field :: rest =>
      update_fields rest update_data
        match update_data !! field with
        | Some value => setattr db_obj field value
        | None => db_obj
        end
  end.

(** [update(db, db_obj, obj_in)], where [obj_in] is a schema or a [dict].
    Only the keys of [jsonable_encoder(db_obj)] are used: the attributes
    of the loaded object. *)
Definition CRUDBase_update (utcnow : Z) (db_obj : Entity)
    (obj_in : UpdateSchemaType + dict) (db : list Entity)
  : result Entity * list Entity :=
  let obj_data := (map_to_list db_obj).*1 in
  let update_data :=
    match obj_in with
    | inr d => d
    | inl schema => model_dump_exclude_unset schema
    end in
  commit_update model utcnow db_obj (update_fields obj_data update_data db_obj) db.

(** [remove(db, id)]: a hard delete that returns the object it removed. *)
Definition CRUDBase_remove (id : Z) (db : list Entity)
  : result (option Entity) * list Entity :=
  match CRUDBase_get db id with
  | Some obj => (Ret (Some obj), delete_row id db)
  | None => (Ret None, db)
  end.
End CRUDBase.

(* ===================================================================== *)
(** ** [app/crud/crud_user.py]                                            *)
(* ===================================================================== *)

Section CRUDUser.
Variable lib : Libs.

(** [get_by_email(db, email)]: [filter(User.email == email).first()]. *)
Definition get_by_email (db : list Entity) (email : string) : option Entity :=
  List.find (fun row => bool_decide (row !! "email" = Some (VStr email))) db.

(** [CRUDUser.update]: a [password] key, whatever its value, is hashed and
    replaced by [hashed_password] before the generic update runs. *)
Definition CRUDUser_update (utcnow : Z) (salt : string) (db_obj : Entity)
    (obj_in : UserUpdate + dict) (db : list Entity)
  : result Entity * list Entity :=
  let update_data :=
    match obj_in with
    | inr d => d
    | inl schema => UserUpdate_model_dump_exclude_unset schema
    end in
  match update_data !! "password" with
  | Some password =>
      match get_password_hash lib salt password with
      | Ret hashed_password =>
          CRUDBase_update User_columns UserUpdate
            UserUpdate_model_dump_exclude_unset utcnow db_obj
            (inr (<["hashed_password" := VStr hashed_password]>
                    (delete "password" update_data))) db
      | Raise e => (Raise e, db)
      end
  | None =>
      CRUDBase_update User_columns UserUpdate
        UserUpdate_model_dump_exclude_unset utcnow db_obj (inr update_data) db
  end.

(** [authenticate(db, email, password)]. *)
Definition authenticate (db : list Entity) (email password : string)
  : result (option Entity) :=
  match get_by_email db email with
  | None => Ret None
  | Some user =>
      ok ← verify_password lib password (getattr user "hashed_password");
      if negb ok then Ret None else Ret (Some user)
  end.

(** [is_active(user)] and [is_superuser(user)]. *)
Definition is_active (user : Entity) : pyval := getattr user "is_active".
Definition is_superuser (user : Entity) : pyval := getattr user "is_superuser".
End CRUDUser.

(* ===================================================================== *)
(** ** [app/api/deps.py]                                                  *)
(* ===================================================================== *)

(** [get_current_active_user(current_user)]. *)
Definition get_current_active_user (current_user : Entity) : result Entity :=
  if negb (truthy (is_active current_user))
  then Raise (HTTPException HTTP_400_BAD_REQUEST "Inactive user")
  else Ret current_user.

(** [get_current_active_superuser(current_user)]. *)
Definition get_current_active_superuser (current_user : Entity) : result Entity :=
  if negb (truthy (is_superuser current_user))
  then Raise (HTTPException HTTP_403_FORBIDDEN "The user doesn't have enough privileges")
  else Ret current_user.

(* ===================================================================== *)
(** ** [app/api/v1/endpoints/users.py]                                    *)
(* ===================================================================== *)

Section Endpoints.
Variable lib : Libs.
Variable settings : Settings.

(** [POST /auth/login]. *)
Definition login (utcnow : Z) (db : list Entity) (username password : string)
  : result Token :=
  user ← authenticate lib db username password;
  match user with
  | None =>
      Raise (HTTPException HTTP_400_BAD_REQUEST "Incorrect email or password")
  | Some user =>
      if negb (truthy (is_active user))
      then Raise (HTTPException HTTP_400_BAD_REQUEST "Inactive user")
      else
        token ← create_access_token lib settings utcnow (getattr user "email") None;
        Ret {| access_token := token; token_type := "bearer" |}
  end.

(** [GET /users/me]. *)
Definition read_user_me (current_user : Entity) : result Entity :=
  Ret current_user.

(** [PUT /users/me]: the body is a [UserUpdate], applied to the caller's
    own record. *)
Definition update_user_me (utcnow : Z) (salt : string) (user_in : UserUpdate)
    (current_user : Entity) (db : list Entity) : result Entity * list Entity :=
  CRUDUser_update lib utcnow salt current_user (inl user_in) db.

(** [GET /users/{user_id}]. *)
Definition read_user_by_id (user_id : Z) (current_user : Entity)
    (db : list Entity) : result Entity :=
  match CRUDBase_get db user_id with
  | None => Raise (HTTPException HTTP_404_NOT_FOUND "User not found")
  | Some user => Ret user
  end.

(** [PUT /users/{user_id}]. *)
Definition update_user (utcnow : Z) (salt : string) (user_id : Z)
    (user_in : UserUpdate) (current_user : Entity) (db : list Entity)
  : result Entity * list Entity :=
  match CRUDBase_get db user_id with
  | None => (Raise (HTTPException HTTP_404_NOT_FOUND "User not found"), db)
  | Some user => CRUDUser_update lib utcnow salt user (inl user_in) db
  end.

(** [DELETE /users/{user_id}]: the handler returns what [remove] returns. *)
Definition delete_user (user_id : Z) (current_user : Entity) (db : list Entity)
  : result (option Entity) * list Entity :=
  match CRUDBase_get db user_id with
  | None => (Raise (HTTPException HTTP_404_NOT_FOUND "User not found"), db)
  | Some user =>
      if py_eq (getattr user "id") (getattr current_user "id")
      then (Raise (HTTPException HTTP_400_BAD_REQUEST "Users cannot delete themselves"), db)
      else CRUDBase_remove user_id db
  end.
End Endpoints.

(* ===================================================================== *)
(** ** Contracts of the libraries                                         *)
(* ===================================================================== *)

(** The claims python-jose returns for a token made of an expiry and a
    subject. *)
Definition decoded_claims (expire : Z) (sub : string) : dict :=
  <["exp" := VInt (unix_seconds expire)]> (<["sub" := VStr sub]> ∅).

(** python-jose at one key and algorithm: claims with a [datetime] [exp]
    and a string [sub] encode to a token, and [decode] with the same key
    and algorithm gives the claims back for as long as the clock, in whole
    seconds, is not past [exp]. *)
Definition jose_round_trip (lib : Libs) (key alg : string) : Prop :=
  forall (expire : Z) (sub : string),
    exists token,
      jwt_encode lib (<["exp" := VDateTime expire]> (<["sub" := VStr sub]> ∅)) key alg
        = Ret token
      /\ forall utcnow, unix_seconds utcnow <= unix_seconds expire ->
           jwt_decode lib utcnow token key [alg] = Ret (decoded_claims expire sub).


(* ===================================================================== *)
(** ** Executable stand-ins for the libraries                             *)
(* ===================================================================== *)

(** Small implementations of the [Libs] interface that follow the
    documented behaviour of the two libraries where the code depends on
    it: [CryptContext.verify] raises [UnknownHashError] for a hash string
    that no configured scheme identifies and [hash] a [TypeError] for a
    secret that is not a string; [jwt.decode] raises [JWTError] for a
    malformed token, a wrong key or algorithm, and [ExpiredSignatureError]
    once the expiry is past; [lib_int_exp] has, besides, the [TypeError]
    of python-jose's [exp] check on a null [exp]. The digest is not bcrypt
    and the token is not a signed JWS: fields are laid out behind a unary
    length prefix. They instantiate the interface at concrete inputs. *)
Module Fake.

Fixpoint unary (n : nat) : string :=
  match n with
  | O => "0"
  | S n' => String "1"%char (unary n')
  end.

Fixpoint read_unary (s : string) : option (nat * string) :=
  match s with
  | EmptyString => None
  | String c rest =>
      if decide (c = "0"%char) then Some (O, rest)
      else if decide (c = "1"%char) then
        match read_unary rest with
        | Some (n, r) => Some (S n, r)
        | None => None
        end
      else None
  end.

Fixpoint split_at (n : nat) (s : string) : option (string * string) :=
  match n, s with
  | O, _ => Some (EmptyString, s)
  | S n', String c rest =>
      match split_at n' rest with
      | Some (a, r) => Some (String c a, r)
      | None => None
      end
  | S _, EmptyString => None
  end.

(** [a] behind its length, followed by [rest]. *)
Definition framed (a rest : string) : string :=
  unary (String.length a) +:+ (a +:+ rest).

Definition unframe (s : string) : option (string * string) :=
  match read_unary s with
  | Some (n, r) => split_at n r
  | None => None
  end.

Definition enc_Z (z : Z) (rest : string) : string :=
  String (if z <? 0 then "-"%char else "+"%char) (unary (Z.abs_nat z) +:+ rest).

Definition dec_Z (s : string) : option (Z * string) :=
  match s with
  | EmptyString => None
  | String c rest =>
      match read_unary rest with
      | Some (n, r) =>
          if decide (c = "-"%char) then Some (- Z.of_nat n, r)
          else if decide (c = "+"%char) then Some (Z.of_nat n, r)
          else None
      | None => None
      end
  end.

Definition encode (claims : dict) (key alg : string) : result string :=
  match claims !! "exp", claims !! "sub" with
  | Some (VDateTime expire), Some (VStr sub) =>
      Ret (framed key (framed alg (enc_Z (unix_seconds expire) sub)))
  | _, _ => Raise JWTError
  end.

Definition decode (utcnow : Z) (token key : string) (algs : list string)
  : result dict :=
  match unframe token with
  | Some (k, r1) =>
      match unframe r1 with
      | Some (a, r2) =>
          match dec_Z r2 with
          | Some (exp, sub) =>
              if negb (bool_decide (k = key)) then Raise JWTError
              else if negb (bool_decide (a ∈ algs)) then Raise JWTError
              else if exp <? unix_seconds utcnow then Raise ExpiredSignatureError
              else Ret (<["exp" := VInt exp]> (<["sub" := VStr sub]> ∅))
          | None => Raise JWTError
          end
      | None => Raise JWTError
      end
  | None => Raise JWTError
  end.

Definition bcrypt_ident : string := "$2b$".

Definition hash (salt : string) (secret : pyval) : result string :=
  match secret with
  | VStr s => Ret (bcrypt_ident +:+ framed salt s)
  | _ => Raise TypeError
  end.

Definition verify (secret : string) (hash : pyval) : result bool :=
  match hash with
  | VNone => Ret false
  | VStr h =>
      if String.prefix bcrypt_ident h then
        match unframe (String.substring 4 (String.length h - 4) h) with
        | Some (_, digest) => Ret (bool_decide (digest = secret))
        | None => Raise ValueError
        end
      else Raise UnknownHashError
  | _ => Raise TypeError
  end.

Definition lib : Libs := {|
  pwd_verify := verify;
  pwd_hash := hash;
  jwt_encode := encode;
  jwt_decode := decode;
  datetime_str := pretty
|}.

(** A token whose payload holds a null [exp]: the letter n in the place
    of the expiry. *)
Definition null_exp_token (key alg sub : string) : string :=
  framed key (framed alg (String "n"%char sub)).

(** [jwt.decode] with the [exp] check of python-jose. After the signature
    is verified, [_validate_exp] reads the claim with [int(claims["exp"])]
    under [except ValueError] alone; on a null [exp], [int] raises a
    [TypeError], which is not reported as a [JWTClaimsError]. Every other
    token is treated as [decode] treats it. *)
Definition decode_int_exp (utcnow : Z) (token key : string) (algs : list string)
  : result dict :=
  match unframe token with
  | Some (k, r1) =>
      match unframe r1 with
      | Some (a, String c sub) =>
          if bool_decide (c = "n"%char) then
            if negb (bool_decide (k = key)) then Raise JWTError
            else if negb (bool_decide (a ∈ algs)) then Raise JWTError
            else Raise TypeError
          else decode utcnow token key algs
      | _ => decode utcnow token key algs
      end
  | None => decode utcnow token key algs
  end.

Definition lib_int_exp : Libs := {|
  pwd_verify := verify;
  pwd_hash := hash;
  jwt_encode := encode;
  jwt_decode := decode_int_exp;
  datetime_str := pretty
|}.

(** A table with an ordinary active user and an inactive superuser. *)
Definition row (id : Z) (email password : string) (active superuser : bool)
  : Entity :=
  <["id" := VInt id]> (<["email" := VStr email]>
  (<["hashed_password" := VStr (bcrypt_ident +:+ framed "salt" password)]>
  (<["full_name" := VNone]> (<["is_active" := VBool active]>
  (<["is_superuser" := VBool superuser]> (<["created_at" := VDateTime 0]>
  (<["updated_at" := VDateTime 0]> ∅))))))).

Definition alice : Entity := row 1 "alice@example.com" "password123" true false.
Definition root : Entity := row 2 "root@example.com" "adminpassword123" false true.
Definition users : list Entity := [alice; root].

(** Request bodies for [PUT /users/me]. *)
Definition promote : UserUpdate := {|
  uu_email := None; uu_password := None; uu_full_name := None;
  uu_is_active := None; uu_is_superuser := Some (Some true)
|}.
Definition disable : UserUpdate := {|
  uu_email := None; uu_password := None; uu_full_name := None;
  uu_is_active := Some (Some false); uu_is_superuser := None
|}.
Definition null_password : UserUpdate := {|
  uu_email := None; uu_password := Some None; uu_full_name := None;
  uu_is_active := None; uu_is_superuser := None
|}.

End Fake.

(* ===================================================================== *)
(** ** More of the repositories                                           *)
(* ===================================================================== *)

(** [CRUDBase.get_multi(db, skip, limit)]:
    [db.query(model).offset(skip).limit(limit).all()]. The method checks
    neither argument and the query has no ORDER BY: which rows come back,
    in which order, and whether a negative [skip] or [limit] is an error,
    is the answer of the database, [offset_limit_all]. *)
Definition CRUDBase_get_multi
    (offset_limit_all : list Entity -> Z -> Z -> result (list Entity))
    (db : list Entity) (skip limit : Z) : result (list Entity) :=
  offset_limit_all db skip limit.

(** [UserCreate(UserBase)]: [email] and [password] are required,
    [full_name] defaults to [None], [is_active] to [True] and
    [is_superuser] to [False]. *)
Record UserCreate := {
  uc_email : string;
  uc_full_name : option string;
  uc_is_active : bool;
  uc_is_superuser : bool;
  uc_password : string
}.

(** [obj_in.model_dump()] for a [UserCreate]: every field, set or not. *)
Definition UserCreate_model_dump (u : UserCreate) : dict :=
  <["email" := VStr (uc_email u)]>
    (<["full_name" := from_option VStr VNone (uc_full_name u)]>
      (<["is_active" := VBool (uc_is_active u)]>
        (<["is_superuser" := VBool (uc_is_superuser u)]>
          (<["password" := VStr (uc_password u)]> ∅)))).

(** [db.add(db_obj); db.commit(); db.refresh(db_obj)] for a new object:
    the row is appended, and a violated constraint raises [IntegrityError]
    with the table as it was. *)
Definition commit_insert (cols : list Column) (new : Entity) (rows : list Entity)
  : result Entity * list Entity :=
  let rows' := rows ++ [new] in
  if constraints_ok cols rows' then (Ret new, rows')
  else (Raise IntegrityError, rows).

(** [CRUDUser.create(db, obj_in)]. The object is built from the dump
    without [password] and with [hashed_password]; the insert fills the
    columns that were not given: [id] from the sequence ([next_id]) and
    [created_at], [updated_at] from their [default=datetime.utcnow]. *)
Definition CRUDUser_create (lib : Libs) (next_id created_at updated_at : Z)
    (salt : string) (obj_in : UserCreate) (db : list Entity)
  : result Entity * list Entity :=
  let create_data := delete "password" (UserCreate_model_dump obj_in) in
  match get_password_hash lib salt (VStr (uc_password obj_in)) with
  | Ret hashed_password =>
      let db_obj := <["hashed_password" := VStr hashed_password]> create_data in
      commit_insert User_columns
        (<["id" := VInt next_id]>
          (<["created_at" := VDateTime created_at]>
            (<["updated_at" := VDateTime updated_at]> db_obj))) db
  | Raise e => (Raise e, db)
  end.

(* ===================================================================== *)
(** ** More of [app/api/deps.py]                                          *)
(* ===================================================================== *)

(** The exception [get_current_user] raises (its [WWW-Authenticate]
    header is not part of [exn]). *)
Definition credentials_exception : exn :=
  HTTPException 401 "Could not validate credentials".

Section Deps.
Variable lib : Libs.
Variable settings : Settings.
(** Whether pydantic reads a string as an integer (for [exp]). *)
Variable str_is_int : string -> bool.

(** [TokenPayload] built from the payload's keys: [sub] is [Optional[str]] and [exp] is
    [Optional[int]], other keys are ignored. The result is [sub], or
    [None] for a [ValidationError]. *)
Definition TokenPayload_sub (payload : dict) : option (option string) :=
  let exp_ok :=
    match payload !! "exp" with
    | None | Some VNone | Some (VInt _) | Some (VBool _) => true
    | Some (VStr s) => str_is_int s
    | Some (VDateTime _) => false
    end in
  match payload !! "sub" with
  | None | Some VNone => if exp_ok then Some None else None
  | Some (VStr sub) => if exp_ok then Some (Some sub) else None
  | Some _ => None
  end.

(** [get_current_user(db, token)], called at time [utcnow]. *)
Definition get_current_user (utcnow : Z) (db : list Entity) (token : string)
  : result Entity :=
  match jwt_decode lib utcnow token (SECRET_KEY settings) [ALGORITHM settings] with
  | Raise e => if is_JWTError e then Raise credentials_exception else Raise e
  | Ret payload =>
      match TokenPayload_sub payload with
      | None => Raise credentials_exception
      | Some None => Raise credentials_exception
      | Some (Some sub) =>
          match get_by_email db sub with
          | None => Raise credentials_exception
          | Some user => Ret user
          end
      end
  end.


(** [get_user_by_id(user_id, db)]. *)
Definition get_user_by_id (user_id : Z) (db : list Entity) : result Entity :=
  match CRUDBase_get db user_id with
  | None => Raise (HTTPException HTTP_404_NOT_FOUND "User not found")
  | Some user => Ret user
  end.

(** [Depends(deps.get_current_active_user)] and
    [Depends(deps.get_current_active_superuser)]: both resolve
    [get_current_user] first. *)
Definition Depends_active_user (utcnow : Z) (db : list Entity) (token : string)
  : result Entity :=
  current_user ← get_current_user utcnow db token;
  get_current_active_user current_user.

Definition Depends_active_superuser (utcnow : Z) (db : list Entity)
    (token : string) : result Entity :=
  current_user ← get_current_user utcnow db token;
  get_current_active_superuser current_user.
End Deps.

(* ===================================================================== *)
(** ** More of [app/api/v1/endpoints/users.py]                            *)
(* ===================================================================== *)

(** [GET /users]: what [get_multi] returns. *)
Definition read_users
    (offset_limit_all : list Entity -> Z -> Z -> result (list Entity))
    (skip limit : Z) (current_user : Entity) (db : list Entity)
  : result (list Entity) :=
  CRUDBase_get_multi offset_limit_all db skip limit.

(** [POST /users]. *)
Definition create_user (lib : Libs) (next_id created_at updated_at : Z)
    (salt : string) (user_in : UserCreate) (current_user : Entity)
    (db : list Entity) : result Entity * list Entity :=
  match get_by_email db (uc_email user_in) with
  | Some _ =>
      (Raise (HTTPException HTTP_400_BAD_REQUEST
                "The user with this email already exists in the system"), db)
  | None => CRUDUser_create lib next_id created_at updated_at salt user_in db
  end.

(** A route with its dependencies: the handler runs on the user the
    dependency returns, and a dependency that raises ends the request
    with the table as it was. *)
Definition route {A} (dependency : result Entity)
    (handler : Entity -> list Entity -> result A * list Entity)
    (db : list Entity) : result A * list Entity :=
  match dependency with
  | Ret current_user => handler current_user db
  | Raise e => (Raise e, db)
  end.

Section Routes.
Variable lib : Libs.
Variable settings : Settings.
Variable str_is_int : string -> bool.

(** The routes of the router, from the bearer token on; [utcnow] is the
    time the token is validated at. *)
Definition GET_users_me (utcnow : Z) (token : string) (db : list Entity) :=
  route (Depends_active_user lib settings str_is_int utcnow db token)
    (fun current_user db => (read_user_me current_user, db)) db.

Definition PUT_users_me (utcnow : Z) (token : string) (commit_time : Z)
    (salt : string) (user_in : UserUpdate) (db : list Entity) :=
  route (Depends_active_user lib settings str_is_int utcnow db token)
    (update_user_me lib commit_time salt user_in) db.

Definition GET_users
    (offset_limit_all : list Entity -> Z -> Z -> result (list Entity))
    (utcnow : Z) (token : string) (skip limit : Z) (db : list Entity) :=
  route (Depends_active_superuser lib settings str_is_int utcnow db token)
    (fun current_user db =>
       (read_users offset_limit_all skip limit current_user db, db)) db.

Definition POST_users (utcnow : Z) (token : string)
    (next_id created_at updated_at : Z) (salt : string) (user_in : UserCreate)
    (db : list Entity) :=
  route (Depends_active_superuser lib settings str_is_int utcnow db token)
    (create_user lib next_id created_at updated_at salt user_in) db.

Definition GET_users_id (utcnow : Z) (token : string) (user_id : Z)
    (db : list Entity) :=
  route (Depends_active_superuser lib settings str_is_int utcnow db token)
    (fun current_user db => (read_user_by_id user_id current_user db, db)) db.

Definition PUT_users_id (utcnow : Z) (token : string) (commit_time : Z)
    (salt : string) (user_id : Z) (user_in : UserUpdate) (db : list Entity) :=
  route (Depends_active_superuser lib settings str_is_int utcnow db token)
    (update_user lib commit_time salt user_id user_in) db.

Definition DELETE_users_id (utcnow : Z) (token : string) (user_id : Z)
    (db : list Entity) :=
  route (Depends_active_superuser lib settings str_is_int utcnow db token)
    (delete_user user_id) db.
End Routes.

(* ===================================================================== *)
(** ** [app/main.py]: the first superuser                                 *)
(* ===================================================================== *)

(** [UserCreate(email=..., password=..., full_name=..., is_superuser=...,
    is_active=...)]: the validation a constructor call runs. [EmailStr]
    is pydantic's validator of that name: for a valid address it gives the
    normalised address, which is what the schema stores, and [None] for
    one it rejects. [None] here is a [ValidationError]. *)
Definition UserCreate_init (EmailStr : string -> option string)
    (email password : string) (full_name : option string)
    (is_superuser is_active : bool) : option UserCreate :=
  match EmailStr email with
  | Some address =>
      if length_between 8 100 password
         && match full_name with
            | Some name => length_between 0 255 name
            | None => true
            end
      then Some {|
        uc_email := address;
        uc_password := password;
        uc_full_name := full_name;
        uc_is_superuser := is_superuser;
        uc_is_active := is_active
      |}
      else None
  | None => None
  end.

(** What [startup_event] does to the table, given the configured
    [FIRST_SUPERUSER_EMAIL] and [FIRST_SUPERUSER_PASSWORD] (two plain
    [str] settings): when no user has the configured email it builds the
    [UserCreate] (whose validation can fail) and creates the user;
    [except Exception] swallows every error of these steps, and the table
    is then what it was. The prints and the [create_all] of the
    development mode do not touch the rows. *)
Definition startup_event (lib : Libs) (EmailStr : string -> option string)
    (FIRST_SUPERUSER_EMAIL FIRST_SUPERUSER_PASSWORD : string)
    (next_id created_at updated_at : Z) (salt : string) (db : list Entity)
  : list Entity :=
  match get_by_email db FIRST_SUPERUSER_EMAIL with
  | Some _ => db
  | None =>
      match UserCreate_init EmailStr FIRST_SUPERUSER_EMAIL
              FIRST_SUPERUSER_PASSWORD (Some "Admin User") true true with
      | Some user_in =>
          snd (CRUDUser_create lib next_id created_at updated_at salt user_in db)
      | None => db
      end
  end.

(** passlib's own round trip: a hash made from a secret verifies that
    secret. *)
Definition passlib_verifies_own_hash (lib : Libs) : Prop :=
  forall (salt secret hashed : string),
    pwd_hash lib salt (VStr secret) = Ret hashed ->
    pwd_verify lib secret (VStr hashed) = Ret true.

(* ===================================================================== *)
(** ** The generic update                                                 *)
(* ===================================================================== *)

Section UpdateFields.
Implicit Types (obj_data : list string) (update_data : dict) (db_obj : Entity).

(** Reading a field after the loop of [update]. *)
Lemma update_fields_lookup obj_data update_data db_obj (field : string) :
  update_fields obj_data update_data db_obj !! field =
    if decide (field ∈ obj_data)
    then match update_data !! field with
         | Some value => Some value
         | None => db_obj !! field
         end
    else db_obj !! field.
Proof.
  revert db_obj. induction obj_data as [|f rest IH]; intros db_obj;
    cbn [update_fields].
  - destruct (decide (field ∈ [])) as [Hin|_]; [by apply elem_of_nil in Hin | done].
  - rewrite IH. unfold setattr.
    destruct (decide (field = f)) as [->|Hne].
    + destruct (decide (f ∈ f :: rest)) as [_|Hn]; [|by destruct Hn; left].
      destruct (update_data !! f) as [value|] eqn:Hf.
      * rewrite lookup_insert_eq. by case_decide.
      * by case_decide.
    + assert (Hlook : match update_data !! f with
                      | Some value => <[f := value]> db_obj
                      | None => db_obj
                      end !! field = db_obj !! field).
      { destruct (update_data !! f); [by rewrite lookup_insert_ne | done]. }
      rewrite Hlook.
      destruct (decide (field ∈ rest)) as [Hin|Hnin];
        destruct (decide (field ∈ f :: rest)) as [Hin'|Hnin']; try done.
      * destruct Hnin'. by right.
      * apply elem_of_cons in Hin' as [?|?]; done.
Qed.

(** The keys of [jsonable_encoder(db_obj)] are the attributes of [db_obj]. *)
Lemma obj_data_fields db_obj (field : string) :
  field ∈ (map_to_list db_obj).*1 <-> is_Some (db_obj !! field).
Proof.
  rewrite list_elem_of_fmap. split.
  - intros [[k v] [-> Hkv]]. apply elem_of_map_to_list in Hkv. by exists v.
  - intros [v Hv]. exists (field, v). split; [done|].
    by apply elem_of_map_to_list.
Qed.

(** The object after the loop: an attribute named by the payload takes the
    payload's value, every other attribute keeps its own, and no attribute
    is added. *)
Lemma update_fields_merged update_data db_obj (field : string) :
  update_fields (map_to_list db_obj).*1 update_data db_obj !! field =
    match db_obj !! field with
    | Some old => Some (default old (update_data !! field))
    | None => None
    end.
Proof.
  rewrite update_fields_lookup.
  destruct (db_obj !! field) as [old|] eqn:Hold.
  - rewrite decide_True; [|apply obj_data_fields; by rewrite Hold].
    by destruct (update_data !! field).
  - rewrite decide_False; [done|].
    rewrite obj_data_fields, Hold. by intros [? ?].
Qed.

(** An empty payload leaves the object as it is. *)
Lemma update_fields_empty obj_data db_obj :
  update_fields obj_data ∅ db_obj = db_obj.
Proof.
  revert db_obj. induction obj_data as [|f rest IH]; intros db_obj; simpl; [done|].
  by rewrite lookup_empty, IH.
Qed.
End UpdateFields.

(** The row that replaces a member of the table is in the table afterwards. *)
Lemma replace_row_elem (old new : Entity) (rows : list Entity) :
  old ∈ rows -> new ∈ replace_row (old !! "id") new rows.
Proof.
  intros Hin. unfold replace_row. apply list_elem_of_fmap.
  exists old. split; [|done]. by rewrite decide_True.
Qed.

(** What [commit_update] returns, when it returns: the new object, with at
    most [updated_at] refreshed, stored in the table. *)
Lemma commit_update_Ret cols utcnow (old new e' : Entity) (rows rows' : list Entity) :
  commit_update cols utcnow old new rows = (Ret e', rows') ->
  (forall field : string, field ≠ "updated_at" -> e' !! field = new !! field)
  /\ (old ∈ rows -> e' ∈ rows').
Proof.
  unfold commit_update. intros H.
  destruct (decide (new = old)) as [->|Hne].
  { injection H as <- <-. done. }
  destruct (constraints_ok _ _); [|discriminate].
  injection H as <- <-. split.
  - intros field Hf. case_decide; [|done]. by rewrite lookup_insert_ne.
  - apply replace_row_elem.
Qed.

(** The only exception of [commit_update] is the constraint violation, and
    it leaves the table as it was. *)
Lemma commit_update_Raise cols utcnow (old new : Entity) (rows rows' : list Entity) e :
  commit_update cols utcnow old new rows = (Raise e, rows') ->
  e = IntegrityError /\ rows' = rows.
Proof.
  unfold commit_update. intros H.
  destruct (decide (new = old)); [discriminate|].
  destruct (constraints_ok _ _); [discriminate|].
  by injection H as <- <-.
Qed.

(** C7. Partial-update semantics of [CRUDBase.update], for an object of the
    table and any payload (a schema dumped with [exclude_unset], or a
    [dict]): an empty payload returns the object unchanged and writes
    nothing; when the call returns, every attribute the payload does not
    name keeps its prior value and every attribute it names takes the
    payload's value ([updated_at], which the commit refreshes, aside), and
    the returned object is the stored row; the only way not to return is
    the [IntegrityError] of the commit, which leaves the table as it was. *)
Theorem CRUDBase_update_partial (model : list Column) (UpdateSchemaType : Type)
    (model_dump_exclude_unset : UpdateSchemaType -> dict) (utcnow : Z)
    (db_obj : Entity) (obj_in : UpdateSchemaType + dict) (db : list Entity) :
  let update_data :=
    match obj_in with
    | inr d => d
    | inl schema => model_dump_exclude_unset schema
    end in
  let outcome :=
    CRUDBase_update model UpdateSchemaType model_dump_exclude_unset
      utcnow db_obj obj_in db in
  db_obj ∈ db ->
  (update_data = ∅ -> outcome = (Ret db_obj, db))
  /\ (forall e' db', outcome = (Ret e', db') ->
        (forall field : string, field ≠ "updated_at" ->
           update_data !! field = None -> e' !! field = db_obj !! field)
        /\ (forall (field : string) value, field ≠ "updated_at" ->
              update_data !! field = Some value -> is_Some (db_obj !! field) ->
              e' !! field = Some value)
        /\ e' ∈ db')
  /\ (forall e db', outcome = (Raise e, db') -> e = IntegrityError /\ db' = db).
Proof.
  intros update_data outcome Hin. subst outcome. unfold CRUDBase_update.
  fold update_data. split; [|split].
  - intros ->. rewrite update_fields_empty. unfold commit_update.
    by rewrite decide_True.
  - intros e' db' H. apply commit_update_Ret in H as [Hframe Hstored].
    split; [|split].
    + intros field Hf Hnone. rewrite Hframe by done.
      rewrite update_fields_merged, Hnone. by destruct (db_obj !! field).
    + intros field value Hf Hsome [old Hold]. rewrite Hframe by done.
      by rewrite update_fields_merged, Hold, Hsome.
    + by apply Hstored.
  - intros e db' H. by apply commit_update_Raise in H.
Qed.

Lemma CRUDBase_update_partial_witness :
  Fake.alice ∈ Fake.users
  /\ exists e' db',
       CRUDBase_update User_columns UserUpdate UserUpdate_model_dump_exclude_unset
         1000 Fake.alice (inr {["full_name" := VStr "Alice"]}) Fake.users
         = (Ret e', db')
       /\ e' !! "email" = Fake.alice !! "email"
       /\ e' !! "full_name" = Some (VStr "Alice")
       /\ e' ∈ db'.
Proof.
  assert (Hin : Fake.alice ∈ Fake.users) by apply list_elem_of_here.
  split; [exact Hin|].
  destruct (CRUDBase_update_partial User_columns UserUpdate
              UserUpdate_model_dump_exclude_unset 1000 Fake.alice
              (inr {["full_name" := VStr "Alice"]}) Fake.users Hin)
    as (_ & Hret & _).
  destruct (CRUDBase_update User_columns UserUpdate
              UserUpdate_model_dump_exclude_unset 1000 Fake.alice
              (inr {["full_name" := VStr "Alice"]}) Fake.users)
    as [[e'|e] db'] eqn:Hcall.
  2: { assert (Hc : is_Ret (fst (CRUDBase_update User_columns UserUpdate
                UserUpdate_model_dump_exclude_unset 1000 Fake.alice
                (inr {["full_name" := VStr "Alice"]}) Fake.users)) = true)
         by (vm_compute; reflexivity).
       rewrite Hcall in Hc. discriminate Hc. }
  exists e', db'. split; [reflexivity|].
  destruct (Hret e' db' eq_refl) as (Hframe & Hset & Hstored).
  split; [|split].
  - apply Hframe; [discriminate | vm_compute; reflexivity].
  - apply Hset; [discriminate | vm_compute; reflexivity | vm_compute; eauto].
  - exact Hstored.
Defined.

(* ===================================================================== *)
(** ** The user repository and the self-update route                      *)
(* ===================================================================== *)

(** One entry of the dump, read back. *)
Lemma lookup_dump_field_eq {A} (name : string) (inj : A -> pyval)
    (fld : option (option A)) (d : dict) :
  dump_field name inj fld d !! name =
    match fld with
    | Some (Some a) => Some (inj a)
    | Some None => Some VNone
    | None => d !! name
    end.
Proof. destruct fld as [[a|]|]; simpl; by rewrite ?lookup_insert_eq. Qed.

Lemma lookup_dump_field_ne {A} (name key : string) (inj : A -> pyval)
    (fld : option (option A)) (d : dict) :
  name ≠ key -> dump_field name inj fld d !! key = d !! key.
Proof. intros Hne. destruct fld as [[a|]|]; simpl; by rewrite ?lookup_insert_ne. Qed.

(** The [password] key of the dump: present exactly when the field was
    set, with [None] for an explicit null. *)
Lemma model_dump_password (u : UserUpdate) :
  UserUpdate_model_dump_exclude_unset u !! "password" =
    match uu_password u with
    | Some (Some s) => Some (VStr s)
    | Some None => Some VNone
    | None => None
    end.
Proof.
  unfold UserUpdate_model_dump_exclude_unset.
  rewrite lookup_dump_field_ne, lookup_dump_field_eq by done.
  destruct (uu_password u) as [[s|]|]; [done..|].
  by rewrite !lookup_dump_field_ne, lookup_empty.
Qed.

(** The [is_superuser] and [is_active] keys of the dump. *)
Lemma model_dump_is_superuser (u : UserUpdate) :
  UserUpdate_model_dump_exclude_unset u !! "is_superuser" =
    match uu_is_superuser u with
    | Some (Some b) => Some (VBool b)
    | Some None => Some VNone
    | None => None
    end.
Proof.
  unfold UserUpdate_model_dump_exclude_unset.
  rewrite !lookup_dump_field_ne, lookup_dump_field_eq by done.
  by destruct (uu_is_superuser u) as [[b|]|].
Qed.

Lemma model_dump_is_active (u : UserUpdate) :
  UserUpdate_model_dump_exclude_unset u !! "is_active" =
    match uu_is_active u with
    | Some (Some b) => Some (VBool b)
    | Some None => Some VNone
    | None => None
    end.
Proof.
  unfold UserUpdate_model_dump_exclude_unset.
  rewrite !lookup_dump_field_ne, lookup_dump_field_eq by done.
  destruct (uu_is_active u) as [[b|]|]; [done..|].
  by rewrite !lookup_dump_field_ne, lookup_empty.
Qed.

(** What [CRUDBase.update] returns for a [dict] payload, attribute by
    attribute. *)
Lemma CRUDBase_update_dict_lookup (model : list Column) utcnow
    (db_obj : Entity) (update_data : dict) (db db' : list Entity) (e' : Entity)
    (field : string) :
  CRUDBase_update model UserUpdate UserUpdate_model_dump_exclude_unset
    utcnow db_obj (inr update_data) db = (Ret e', db') ->
  field ≠ "updated_at" ->
  e' !! field =
    match db_obj !! field with
    | Some old => Some (default old (update_data !! field))
    | None => None
    end.
Proof.
  unfold CRUDBase_update. intros H Hf.
  apply commit_update_Ret in H as [Hframe _].
  by rewrite Hframe, update_fields_merged.
Qed.

(** The self-update route passes [is_superuser] and [is_active] of the
    body on to the caller's own record: whatever the route returns carries
    the values that were sent. *)
Lemma update_user_me_flags lib utcnow salt (user_in : UserUpdate)
    (current_user user : Entity) (db db' : list Entity) :
  uu_password user_in = None ->
  update_user_me lib utcnow salt user_in current_user db = (Ret user, db') ->
  (forall b, uu_is_superuser user_in = Some (Some b) ->
     is_Some (current_user !! "is_superuser") -> is_superuser user = VBool b)
  /\ (forall b, uu_is_active user_in = Some (Some b) ->
        is_Some (current_user !! "is_active") -> is_active user = VBool b).
Proof.
  unfold update_user_me, CRUDUser_update. intros Hpw.
  rewrite model_dump_password, Hpw. intros H.
  split; intros b Hb [old Hold]; unfold is_superuser, is_active, getattr.
  - rewrite (CRUDBase_update_dict_lookup _ _ _ _ _ _ _ "is_superuser" H) by done.
    by rewrite Hold, model_dump_is_superuser, Hb.
  - rewrite (CRUDBase_update_dict_lookup _ _ _ _ _ _ _ "is_active" H) by done.
    by rewrite Hold, model_dump_is_active, Hb.
Qed.

(** What the user repository's update returns is a row of the table
    afterwards. *)
Lemma CRUDUser_update_stored lib utcnow salt (db_obj user : Entity)
    (obj_in : UserUpdate + dict) (db db' : list Entity) :
  CRUDUser_update lib utcnow salt db_obj obj_in db = (Ret user, db') ->
  db_obj ∈ db -> user ∈ db'.
Proof.
  unfold CRUDUser_update, CRUDBase_update. intros H Hin.
  destruct (_ !! "password") as [password|].
  - destruct (get_password_hash lib salt password); [|discriminate].
    apply commit_update_Ret in H as [_ Hstored]. by apply Hstored.
  - apply commit_update_Ret in H as [_ Hstored]. by apply Hstored.
Qed.

(** C1. [PUT /users/me] takes the same [UserUpdate] schema as the admin
    route, and that schema has the fields [is_superuser] and [is_active].
    An ordinary active user who sends [is_superuser = true] (a body that
    passes validation) gets a record with [is_superuser = true] back, and
    it is a row of the table afterwards; sending [is_active = false]
    deactivates the record. The two fields do not keep their values. *)
Theorem update_user_me_elevates :
  UserUpdate_valid (fun _ => true) Fake.promote = true
  /\ UserUpdate_valid (fun _ => true) Fake.disable = true
  /\ is_Ret (get_current_active_user Fake.alice) = true
  /\ is_superuser Fake.alice = VBool false
  /\ is_active Fake.alice = VBool true
  /\ (exists user db',
        update_user_me Fake.lib 1000 "salt" Fake.promote Fake.alice Fake.users
          = (Ret user, db')
        /\ is_superuser user = VBool true /\ user ∈ db')
  /\ (exists user db',
        update_user_me Fake.lib 1000 "salt" Fake.disable Fake.alice Fake.users
          = (Ret user, db')
        /\ is_active user = VBool false /\ user ∈ db').
Proof.
  split; [vm_compute; reflexivity|].
  split; [vm_compute; reflexivity|].
  split; [vm_compute; reflexivity|].
  split; [vm_compute; reflexivity|].
  split; [vm_compute; reflexivity|].
  assert (Hin : Fake.alice ∈ Fake.users) by apply list_elem_of_here.
  split.
  - destruct (update_user_me Fake.lib 1000 "salt" Fake.promote Fake.alice Fake.users)
      as [[user|e] db'] eqn:Hcall.
    2: { assert (Hc : is_Ret (fst (update_user_me Fake.lib 1000 "salt"
                  Fake.promote Fake.alice Fake.users)) = true)
           by (vm_compute; reflexivity).
         rewrite Hcall in Hc. discriminate Hc. }
    exists user, db'. split; [reflexivity|]. split.
    + destruct (update_user_me_flags Fake.lib 1000 "salt" Fake.promote Fake.alice
                  user Fake.users db' eq_refl Hcall) as [Hs Ha].
      apply Hs; [reflexivity | vm_compute; eauto].
    + by apply (CRUDUser_update_stored _ _ _ _ _ _ _ _ Hcall).
  - destruct (update_user_me Fake.lib 1000 "salt" Fake.disable Fake.alice Fake.users)
      as [[user|e] db'] eqn:Hcall.
    2: { assert (Hc : is_Ret (fst (update_user_me Fake.lib 1000 "salt"
                  Fake.disable Fake.alice Fake.users)) = true)
           by (vm_compute; reflexivity).
         rewrite Hcall in Hc. discriminate Hc. }
    exists user, db'. split; [reflexivity|]. split.
    + destruct (update_user_me_flags Fake.lib 1000 "salt" Fake.disable Fake.alice
                  user Fake.users db' eq_refl Hcall) as [Hs Ha].
      apply Ha; [reflexivity | vm_compute; eauto].
    + by apply (CRUDUser_update_stored _ _ _ _ _ _ _ _ Hcall).
Qed.

(** C10. A body that sets [password] to null is not a body without
    [password]. The dump contains the key, so the presence check of
    [CRUDUser.update] succeeds and [get_password_hash] is called on [None]:
    when that call raises, the route raises the same error and the table
    is as it was; when it returns a hash, whatever the route returns
    carries that hash in [hashed_password]. *)
Theorem update_null_password_is_hashed lib utcnow salt (user_in : UserUpdate)
    (current_user : Entity) (db : list Entity) :
  uu_password user_in = Some None ->
  UserUpdate_model_dump_exclude_unset user_in !! "password" = Some VNone
  /\ (forall e, get_password_hash lib salt VNone = Raise e ->
        update_user_me lib utcnow salt user_in current_user db = (Raise e, db))
  /\ (forall hashed user db',
        get_password_hash lib salt VNone = Ret hashed ->
        update_user_me lib utcnow salt user_in current_user db = (Ret user, db') ->
        is_Some (current_user !! "hashed_password") ->
        user !! "hashed_password" = Some (VStr hashed)).
Proof.
  intros Hpw.
  assert (Hdump : UserUpdate_model_dump_exclude_unset user_in !! "password"
                  = Some VNone) by (by rewrite model_dump_password, Hpw).
  split; [exact Hdump|]. unfold update_user_me, CRUDUser_update.
  rewrite Hdump. split.
  - by intros e ->.
  - intros hashed user db' -> H [old Hold].
    rewrite (CRUDBase_update_dict_lookup _ _ _ _ _ _ _ "hashed_password" H) by done.
    by rewrite Hold, lookup_insert_eq.
Qed.

Lemma update_null_password_is_hashed_witness :
  uu_password Fake.null_password = Some None
  /\ UserUpdate_valid (fun _ => true) Fake.null_password = true
  /\ update_user_me Fake.lib 1000 "salt" Fake.null_password Fake.alice Fake.users
     = (Raise TypeError, Fake.users).
Proof.
  split; [reflexivity|]. split; [reflexivity|].
  destruct (update_null_password_is_hashed Fake.lib 1000 "salt"
              Fake.null_password Fake.alice Fake.users eq_refl)
    as (_ & Hraise & _).
  apply Hraise. reflexivity.
Defined.

(** A body that does not set [password] leaves the hash function out: the
    outcome is that of the generic update on the dump. *)
Lemma update_unset_password_skips_hash lib utcnow salt (user_in : UserUpdate)
    (current_user : Entity) (db : list Entity) :
  uu_password user_in = None ->
  update_user_me lib utcnow salt user_in current_user db =
    CRUDBase_update User_columns UserUpdate UserUpdate_model_dump_exclude_unset
      utcnow current_user (inr (UserUpdate_model_dump_exclude_unset user_in)) db.
Proof.
  intros Hpw. unfold update_user_me, CRUDUser_update.
  by rewrite model_dump_password, Hpw.
Qed.

(* ===================================================================== *)
(** ** The permission dependencies                                        *)
(* ===================================================================== *)

(** The admin gate reads [is_superuser] and nothing else. *)
Lemma get_current_active_superuser_spec (current_user : Entity) :
  get_current_active_superuser current_user =
    if truthy (getattr current_user "is_superuser")
    then Ret current_user
    else Raise (HTTPException 403 "The user doesn't have enough privileges").
Proof.
  unfold get_current_active_superuser, is_superuser.
  by destruct (truthy _).
Qed.

(** Changing [is_active] never changes what the admin gate decides. *)
Lemma admin_gate_ignores_is_active (current_user : Entity) (v : pyval) :
  is_Ret (get_current_active_superuser (setattr current_user "is_active" v))
  = is_Ret (get_current_active_superuser current_user).
Proof.
  rewrite !get_current_active_superuser_spec. unfold getattr, setattr.
  rewrite lookup_insert_ne by done. by destruct (truthy _).
Qed.

(** C9. The gate of the admin routes reads [is_superuser] and nothing
    else: it returns the user when [is_superuser] is true and raises 403
    when it is not, and its verdict is the same whatever [is_active] is
    set to. So a user with [is_superuser] true and [is_active] false
    passes it, although the gate of the ordinary routes rejects the same
    user as inactive; and when a token resolves to that user, each of the
    five admin routes runs its handler for them, while [GET /users/me]
    answers 400. *)
Theorem admin_gate_checks_only_is_superuser lib settings
    (str_is_int : string -> bool) (utcnow : Z) (token : string)
    (db : list Entity) (current_user : Entity) :
  (truthy (is_superuser current_user) = true ->
     get_current_active_superuser current_user = Ret current_user)
  /\ (truthy (is_superuser current_user) = false ->
        get_current_active_superuser current_user
        = Raise (HTTPException 403 "The user doesn't have enough privileges"))
  /\ (forall v : pyval,
        is_Ret (get_current_active_superuser (setattr current_user "is_active" v))
        = is_Ret (get_current_active_superuser current_user))
  /\ (is_superuser current_user = VBool true ->
      is_active current_user = VBool false ->
      get_current_active_superuser current_user = Ret current_user
      /\ get_current_active_user current_user
         = Raise (HTTPException 400 "Inactive user")
      /\ (get_current_user lib settings str_is_int utcnow db token
            = Ret current_user ->
          (forall offset_limit_all skip limit,
             GET_users lib settings str_is_int offset_limit_all utcnow token
               skip limit db
             = (read_users offset_limit_all skip limit current_user db, db))
          /\ (forall next_id created_at updated_at salt user_in,
                POST_users lib settings str_is_int utcnow token
                  next_id created_at updated_at salt user_in db
                = create_user lib next_id created_at updated_at salt user_in
                    current_user db)
          /\ (forall user_id,
                GET_users_id lib settings str_is_int utcnow token user_id db
                = (read_user_by_id user_id current_user db, db))
          /\ (forall commit_time salt user_id user_in,
                PUT_users_id lib settings str_is_int utcnow token
                  commit_time salt user_id user_in db
                = update_user lib commit_time salt user_id user_in
                    current_user db)
          /\ (forall user_id,
                DELETE_users_id lib settings str_is_int utcnow token user_id db
                = delete_user user_id current_user db)
          /\ GET_users_me lib settings str_is_int utcnow token db
             = (Raise (HTTPException 400 "Inactive user"), db))).
Proof.
  split; [|split; [|split]].
  - intros Hsuper. rewrite get_current_active_superuser_spec.
    unfold is_superuser in Hsuper. by rewrite Hsuper.
  - intros Hsuper. rewrite get_current_active_superuser_spec.
    unfold is_superuser in Hsuper. by rewrite Hsuper.
  - apply admin_gate_ignores_is_active.
  - intros Hsuper Hactive.
    assert (Hgate : get_current_active_superuser current_user = Ret current_user).
    { unfold get_current_active_superuser. by rewrite Hsuper. }
    assert (Huser : get_current_active_user current_user
                    = Raise (HTTPException 400 "Inactive user")).
    { unfold get_current_active_user. by rewrite Hactive. }
    split; [exact Hgate|]. split; [exact Huser|].
    intros Hcur.
    unfold GET_users, POST_users, GET_users_id, PUT_users_id, DELETE_users_id,
      GET_users_me, route, Depends_active_superuser, Depends_active_user.
    rewrite Hcur. simpl. rewrite Hgate, Huser. by repeat split.
Qed.

Lemma admin_gate_checks_only_is_superuser_witness :
  get_current_active_superuser Fake.root = Ret Fake.root
  /\ get_current_active_user Fake.root = Raise (HTTPException 400 "Inactive user")
  /\ get_current_active_superuser Fake.alice
     = Raise (HTTPException 403 "The user doesn't have enough privileges")
  /\ DELETE_users_id Fake.lib default_settings (fun _ => false) 5000000
       (Fake.framed (SECRET_KEY default_settings)
          (Fake.framed "HS256" (Fake.enc_Z 7 "root@example.com"))) 1 Fake.users
     = delete_user 1 Fake.root Fake.users.
Proof.
  assert (Hsuper : is_superuser Fake.root = VBool true) by (vm_compute; reflexivity).
  assert (Hactive : is_active Fake.root = VBool false) by (vm_compute; reflexivity).
  assert (Hcur : get_current_user Fake.lib default_settings (fun _ => false)
            5000000 Fake.users
            (Fake.framed (SECRET_KEY default_settings)
               (Fake.framed "HS256" (Fake.enc_Z 7 "root@example.com")))
          = Ret Fake.root) by reflexivity.
  destruct (admin_gate_checks_only_is_superuser Fake.lib default_settings
              (fun _ => false) 5000000
              (Fake.framed (SECRET_KEY default_settings)
                 (Fake.framed "HS256" (Fake.enc_Z 7 "root@example.com")))
              Fake.users Fake.root) as (_ & _ & _ & Hroot).
  destruct (Hroot Hsuper Hactive) as (Hgate & Huser & Hroutes).
  destruct (Hroutes Hcur) as (_ & _ & _ & _ & Hdelete & _).
  split; [exact Hgate|]. split; [exact Huser|]. split; [|apply Hdelete].
  destruct (admin_gate_checks_only_is_superuser Fake.lib default_settings
              (fun _ => false) 0 EmptyString Fake.users Fake.alice)
    as (_ & H403 & _).
  apply H403. vm_compute. reflexivity.
Defined.

(* ===================================================================== *)
(** ** Deleting a user                                                    *)
(* ===================================================================== *)

(** A row found by primary key has that key and is in the table. *)
Lemma CRUDBase_get_Some (db : list Entity) (id : Z) (user : Entity) :
  CRUDBase_get db id = Some user ->
  user ∈ db /\ user !! "id" = Some (VInt id).
Proof.
  unfold CRUDBase_get. intros H. apply find_some in H as [Hin Hb].
  split; [by apply list_elem_of_In | by apply bool_decide_eq_true in Hb].
Qed.

(** No row is found exactly when no row has the key. *)
Lemma CRUDBase_get_None (db : list Entity) (id : Z) :
  CRUDBase_get db id = None <->
  Forall (fun row : Entity => row !! "id" ≠ Some (VInt id)) db.
Proof.
  unfold CRUDBase_get. rewrite Forall_forall. split.
  - intros H row Hin%list_elem_of_In.
    pose proof (find_none _ _ H row Hin) as Hb. simpl in Hb.
    by apply bool_decide_eq_false in Hb.
  - intros H. induction db as [|row db IH]; [done|]. simpl.
    rewrite bool_decide_false; [|apply H; left].
    apply IH. intros r Hr. apply H. by right.
Qed.

(** After the delete no row has the key, and the other rows are kept in
    their order. *)
Lemma delete_row_spec (id : Z) (db : list Entity) :
  CRUDBase_get (delete_row id db) id = None
  /\ forall row : Entity, row ∈ delete_row id db <->
       row ∈ db /\ row !! "id" ≠ Some (VInt id).
Proof.
  split.
  - apply CRUDBase_get_None, Forall_forall. unfold delete_row.
    intros row Hin. by apply list_elem_of_filter in Hin as [? _].
  - intros row. unfold delete_row. rewrite list_elem_of_filter. tauto.
Qed.

(** C8. [DELETE /users/{id}] for a caller that passed the admin gate: no
    user with the id gives 404 and the table as it was; a user with the id
    that is the caller's own gives 400 and the table as it was; any other
    existing user is returned as it was stored and is gone from the table,
    whose other rows are kept. *)
Theorem delete_user_spec (user_id caller_id : Z) (current_user : Entity)
    (db : list Entity) :
  getattr current_user "id" = VInt caller_id ->
  (CRUDBase_get db user_id = None ->
     delete_user user_id current_user db
     = (Raise (HTTPException 404 "User not found"), db))
  /\ (forall user, CRUDBase_get db user_id = Some user -> caller_id = user_id ->
        delete_user user_id current_user db
        = (Raise (HTTPException 400 "Users cannot delete themselves"), db))
  /\ (forall user, CRUDBase_get db user_id = Some user -> caller_id ≠ user_id ->
        delete_user user_id current_user db
        = (Ret (Some user), delete_row user_id db)
        /\ user ∈ db
        /\ CRUDBase_get (delete_row user_id db) user_id = None
        /\ forall row : Entity, row ∈ delete_row user_id db <->
             row ∈ db /\ row !! "id" ≠ Some (VInt user_id)).
Proof.
  intros Hcaller. unfold delete_user. split; [|split].
  - by intros ->.
  - intros user Hget ->. rewrite Hget.
    apply CRUDBase_get_Some in Hget as [_ Hid].
    unfold getattr at 1. rewrite Hid, Hcaller. simpl.
    by rewrite bool_decide_true.
  - intros user Hget Hne. rewrite Hget.
    pose proof (CRUDBase_get_Some _ _ _ Hget) as [Hin Hid].
    unfold getattr at 1. rewrite Hid, Hcaller. simpl.
    rewrite bool_decide_false by congruence.
    unfold CRUDBase_remove. rewrite Hget.
    split; [done|]. split; [done|]. apply delete_row_spec.
Qed.

Lemma delete_user_spec_witness :
  fst (delete_user 7 Fake.root Fake.users)
    = Raise (HTTPException 404 "User not found")
  /\ fst (delete_user 2 Fake.root Fake.users)
     = Raise (HTTPException 400 "Users cannot delete themselves")
  /\ delete_user 1 Fake.root Fake.users = (Ret (Some Fake.alice), [Fake.root]).
Proof.
  assert (Hcaller : getattr Fake.root "id" = VInt 2) by (vm_compute; reflexivity).
  assert (Hnone : CRUDBase_get Fake.users 7 = None) by (vm_compute; reflexivity).
  assert (Hroot : CRUDBase_get Fake.users 2 = Some Fake.root) by reflexivity.
  assert (Halice : CRUDBase_get Fake.users 1 = Some Fake.alice) by reflexivity.
  split; [|split].
  - destruct (delete_user_spec 7 2 Fake.root Fake.users Hcaller) as (H404 & _ & _).
    by rewrite (H404 Hnone).
  - destruct (delete_user_spec 2 2 Fake.root Fake.users Hcaller) as (_ & H400 & _).
    by rewrite (H400 Fake.root Hroot eq_refl).
  - destruct (delete_user_spec 1 2 Fake.root Fake.users Hcaller) as (_ & _ & Hdel).
    assert (Hne : 2 ≠ 1) by discriminate.
    destruct (Hdel Fake.alice Halice Hne) as (Hout & _).
    rewrite Hout. reflexivity.
Defined.

(* ===================================================================== *)
(** ** Passwords, authentication and login                                *)
(* ===================================================================== *)

(** C3. [verify_password] returns no boolean for a malformed hash: it is
    the call into the hashing context with no handler around it, so
    whatever the context raises leaves it, for every context. With a
    context that, like passlib's [CryptContext], raises [UnknownHashError]
    for a string no scheme identifies, [verify_password] on the hash
    string [not-a-hash] raises where its docstring promises [False]; and
    [authenticate], for a user whose stored hash is that string, raises
    with it. *)
Theorem verify_password_malformed_raises :
  verify_password Fake.lib "password123" (VStr "not-a-hash") = Raise UnknownHashError
  /\ (forall lib (plain_password : string) (hashed_password : pyval) e,
        pwd_verify lib plain_password hashed_password = Raise e ->
        verify_password lib plain_password hashed_password = Raise e)
  /\ authenticate Fake.lib
       [<["hashed_password" := VStr "not-a-hash"]> Fake.alice]
       "alice@example.com" "password123"
     = Raise UnknownHashError
  /\ ~ (forall (lib : Libs) (plain_password hash_string : string),
          exists b, verify_password lib plain_password (VStr hash_string) = Ret b).
Proof.
  assert (H : verify_password Fake.lib "password123" (VStr "not-a-hash")
              = Raise UnknownHashError) by (vm_compute; reflexivity).
  split; [exact H|]. split; [|split].
  - intros lib plain_password hashed_password e He. exact He.
  - vm_compute. reflexivity.
  - intros Hall. destruct (Hall Fake.lib "password123" "not-a-hash") as [b Hb].
    rewrite H in Hb. discriminate Hb.
Qed.

(** A row found by email has that email and is in the table. *)
Lemma get_by_email_Some (db : list Entity) (email : string) (user : Entity) :
  get_by_email db email = Some user ->
  user ∈ db /\ user !! "email" = Some (VStr email).
Proof.
  unfold get_by_email. intros H. apply find_some in H as [Hin Hb].
  split; [by apply list_elem_of_In | by apply bool_decide_eq_true in Hb].
Qed.

(** No row is found exactly when no row has the email. *)
Lemma get_by_email_None (db : list Entity) (email : string) :
  get_by_email db email = None <->
  Forall (fun row : Entity => row !! "email" ≠ Some (VStr email)) db.
Proof.
  unfold get_by_email. rewrite Forall_forall. split.
  - intros H row Hin%list_elem_of_In.
    pose proof (find_none _ _ H row Hin) as Hb. simpl in Hb.
    by apply bool_decide_eq_false in Hb.
  - intros H. induction db as [|row db IH]; [done|]. simpl.
    rewrite bool_decide_false; [|apply H; left].
    apply IH. intros r Hr. apply H. by right.
Qed.

(** [authenticate] by cases. *)
Lemma authenticate_unfold lib (db : list Entity) (email password : string) :
  authenticate lib db email password =
    match get_by_email db email with
    | None => Ret None
    | Some user =>
        match verify_password lib password (getattr user "hashed_password") with
        | Ret true => Ret (Some user)
        | Ret false => Ret None
        | Raise e => Raise e
        end
    end.
Proof.
  unfold authenticate. destruct (get_by_email db email) as [user|]; [|done].
  by destruct (verify_password _ _ _) as [[|]|e].
Qed.

(** C2. [authenticate] returns [None] when no row has the email, and the
    same [None] when the row exists and the password does not verify
    against its stored hash; it returns a user exactly when that user is
    the row found for the email and the password verifies, and that user
    is a row of the table with the email asked for. *)
Theorem authenticate_spec lib (db : list Entity) (email password : string) :
  (Forall (fun row : Entity => row !! "email" ≠ Some (VStr email)) db ->
     authenticate lib db email password = Ret None)
  /\ (forall user, get_by_email db email = Some user ->
        verify_password lib password (getattr user "hashed_password") = Ret false ->
        authenticate lib db email password = Ret None)
  /\ (forall user, authenticate lib db email password = Ret (Some user) <->
        get_by_email db email = Some user
        /\ verify_password lib password (getattr user "hashed_password") = Ret true)
  /\ (forall user, authenticate lib db email password = Ret (Some user) ->
        user ∈ db /\ getattr user "email" = VStr email).
Proof.
  rewrite authenticate_unfold. split; [|split; [|split]].
  - intros Hnone%get_by_email_None. by rewrite Hnone.
  - by intros user -> ->.
  - intros user. split.
    + destruct (get_by_email db email) as [found|]; [|discriminate].
      destruct (verify_password _ _ _) as [[|]|e] eqn:Hv; try discriminate.
      by intros [= <-].
    + by intros [-> ->].
  - intros user H.
    destruct (get_by_email db email) as [found|] eqn:Hget; [|discriminate].
    destruct (verify_password _ _ _) as [[|]|e]; try discriminate.
    injection H as <-. apply get_by_email_Some in Hget as [Hin Hemail].
    split; [done|]. unfold getattr. by rewrite Hemail.
Qed.

Lemma authenticate_spec_witness :
  authenticate Fake.lib Fake.users "nobody@example.com" "password123" = Ret None
  /\ authenticate Fake.lib Fake.users "alice@example.com" "wrong-password" = Ret None
  /\ authenticate Fake.lib Fake.users "alice@example.com" "password123"
     = Ret (Some Fake.alice).
Proof.
  assert (Halice : get_by_email Fake.users "alice@example.com" = Some Fake.alice)
    by reflexivity.
  split; [|split].
  - destruct (authenticate_spec Fake.lib Fake.users "nobody@example.com"
                "password123") as (Habsent & _).
    apply Habsent. repeat constructor; vm_compute; discriminate.
  - destruct (authenticate_spec Fake.lib Fake.users "alice@example.com"
                "wrong-password") as (_ & Hwrong & _).
    apply (Hwrong Fake.alice Halice). vm_compute. reflexivity.
  - destruct (authenticate_spec Fake.lib Fake.users "alice@example.com"
                "password123") as (_ & _ & Hok & _).
    apply Hok. split; [exact Halice | vm_compute; reflexivity].
Defined.

(** C4. [login] authenticates, then checks the active flag, then issues
    the token. Credentials that do not authenticate give 400; a user who
    authenticates and is inactive gives 400 "Inactive user"; in both
    cases nothing is returned. A user who authenticates and is active
    gets the bearer token that [create_access_token] makes for the email,
    and a token is returned only for such a user. *)
Theorem login_spec lib settings (utcnow : Z) (db : list Entity)
    (username password : string) :
  (authenticate lib db username password = Ret None ->
     login lib settings utcnow db username password
     = Raise (HTTPException 400 "Incorrect email or password"))
  /\ (forall user, authenticate lib db username password = Ret (Some user) ->
        truthy (is_active user) = false ->
        login lib settings utcnow db username password
        = Raise (HTTPException 400 "Inactive user"))
  /\ (forall user tok, authenticate lib db username password = Ret (Some user) ->
        truthy (is_active user) = true ->
        create_access_token lib settings utcnow (getattr user "email") None = Ret tok ->
        login lib settings utcnow db username password
        = Ret {| access_token := tok; token_type := "bearer" |})
  /\ (forall token, login lib settings utcnow db username password = Ret token ->
        exists user,
          authenticate lib db username password = Ret (Some user)
          /\ truthy (is_active user) = true
          /\ create_access_token lib settings utcnow (getattr user "email") None
             = Ret (access_token token)
          /\ token_type token = "bearer").
Proof.
  unfold login. split; [|split; [|split]].
  - by intros ->.
  - intros user -> Hactive. simpl. by rewrite Hactive.
  - intros user tok -> Hactive Htok. simpl. by rewrite Hactive, Htok.
  - intros token H.
    destruct (authenticate lib db username password) as [[user|]|e];
      simpl in H; try discriminate.
    destruct (truthy (is_active user)) eqn:Hactive; simpl in H; [|discriminate].
    destruct (create_access_token _ _ _ _ _) as [tok|e] eqn:Htok;
      simpl in H; [|discriminate].
    injection H as <-. by exists user.
Qed.

(* ===================================================================== *)
(** ** The stand-in libraries meet the contracts                          *)
(* ===================================================================== *)

Lemma Fake_read_unary_unary (n : nat) (rest : string) :
  Fake.read_unary (Fake.unary n +:+ rest) = Some (n, rest).
Proof. induction n as [|n IH]; simpl; [done|]. by rewrite IH. Qed.

Lemma Fake_split_at_app (a rest : string) :
  Fake.split_at (String.length a) (a +:+ rest) = Some (a, rest).
Proof. induction a as [|c a IH]; simpl; [done|]. by rewrite IH. Qed.

Lemma Fake_unframe_framed (a rest : string) :
  Fake.unframe (Fake.framed a rest) = Some (a, rest).
Proof.
  unfold Fake.unframe, Fake.framed.
  by rewrite Fake_read_unary_unary, Fake_split_at_app.
Qed.

Lemma Fake_dec_enc_Z (z : Z) (rest : string) :
  Fake.dec_Z (Fake.enc_Z z rest) = Some (z, rest).
Proof.
  unfold Fake.dec_Z, Fake.enc_Z. rewrite Fake_read_unary_unary.
  destruct (Z.ltb_spec z 0).
  - rewrite decide_True by done. do 2 f_equal. lia.
  - rewrite decide_False by done. rewrite decide_True by done. do 2 f_equal. lia.
Qed.

Lemma Fake_round_trip (key alg : string) : jose_round_trip Fake.lib key alg.
Proof.
  intros expire sub. eexists. split.
  - cbn [jwt_encode Fake.lib]. unfold Fake.encode.
    rewrite lookup_insert_eq, lookup_insert_ne, lookup_insert_eq by done. done.
  - intros utcnow Hle. cbn [jwt_decode Fake.lib]. unfold Fake.decode.
    rewrite !Fake_unframe_framed, Fake_dec_enc_Z.
    rewrite bool_decide_true by done. cbn [negb].
    rewrite bool_decide_true by apply list_elem_of_here. cbn [negb].
    destruct (Z.ltb_spec (unix_seconds expire) (unix_seconds utcnow)); [lia|done].
Qed.


Lemma login_spec_witness :
  login Fake.lib default_settings 0 Fake.users "alice@example.com" "wrong-password"
    = Raise (HTTPException 400 "Incorrect email or password")
  /\ login Fake.lib default_settings 0 Fake.users "root@example.com" "adminpassword123"
     = Raise (HTTPException 400 "Inactive user")
  /\ exists tok,
       login Fake.lib default_settings 0 Fake.users "alice@example.com" "password123"
       = Ret {| access_token := tok; token_type := "bearer" |}.
Proof.
  split; [|split].
  - destruct (login_spec Fake.lib default_settings 0 Fake.users
                "alice@example.com" "wrong-password") as (Hbad & _).
    apply Hbad. vm_compute. reflexivity.
  - destruct (login_spec Fake.lib default_settings 0 Fake.users
                "root@example.com" "adminpassword123") as (_ & Hinactive & _).
    apply (Hinactive Fake.root); [reflexivity | vm_compute; reflexivity].
  - destruct (login_spec Fake.lib default_settings 0 Fake.users
                "alice@example.com" "password123") as (_ & _ & Hok & _).
    destruct (Fake_round_trip (SECRET_KEY default_settings)
                (ALGORITHM default_settings)
                (token_expiry default_settings 0 None)
                "alice@example.com") as [tok [Henc _]].
    exists tok. apply (Hok Fake.alice);
      [reflexivity | vm_compute; reflexivity | exact Henc].
Defined.

(* ===================================================================== *)
(** ** Tokens                                                             *)
(* ===================================================================== *)

(** C5. With python-jose's round trip at the configured key and
    algorithm: the token that [create_access_token] makes for a subject
    string decodes, for as long as its expiry has not passed, to a payload
    whose [sub] is that string and whose [exp] is the expiry in seconds. *)
Theorem token_round_trip lib settings (issued utcnow : Z) (subject : string)
    (expires_delta : option Z) :
  jose_round_trip lib (SECRET_KEY settings) (ALGORITHM settings) ->
  unix_seconds utcnow <= unix_seconds (token_expiry settings issued expires_delta) ->
  exists token payload,
    create_access_token lib settings issued (VStr subject) expires_delta = Ret token
    /\ decode_access_token lib settings utcnow token = Ret (Some payload)
    /\ payload !! "sub" = Some (VStr subject)
    /\ payload !! "exp"
       = Some (VInt (unix_seconds (token_expiry settings issued expires_delta))).
Proof.
  intros Hlib Hfresh.
  destruct (Hlib (token_expiry settings issued expires_delta) subject)
    as (token & Henc & Hdec).
  exists token, (decoded_claims (token_expiry settings issued expires_delta) subject).
  split; [exact Henc|]. split.
  - unfold decode_access_token. by rewrite (Hdec utcnow Hfresh).
  - unfold decoded_claims. split.
    + by rewrite lookup_insert_ne, lookup_insert_eq.
    + by rewrite lookup_insert_eq.
Qed.

Lemma token_round_trip_witness :
  exists token payload,
    create_access_token Fake.lib default_settings 0 (VStr "alice@example.com") None
      = Ret token
    /\ decode_access_token Fake.lib default_settings 1000000 token = Ret (Some payload)
    /\ payload !! "sub" = Some (VStr "alice@example.com").
Proof.
  destruct (token_round_trip Fake.lib default_settings 0 1000000
              "alice@example.com" None
              (Fake_round_trip (SECRET_KEY default_settings)
                 (ALGORITHM default_settings)))
    as (token & payload & Hmake & Hdecode & Hsub & _).
  { vm_compute. discriminate. }
  exists token, payload. by split.
Defined.

(** X1. The password-reset pair goes round in the same way: with
    python-jose's round trip, the token of [generate_password_reset_token]
    for an email, verified within its hour, gives that email back. *)
Lemma password_reset_round_trip lib settings (issued utcnow : Z) (email : string) :
  jose_round_trip lib (SECRET_KEY settings) (ALGORITHM settings) ->
  unix_seconds utcnow <= unix_seconds (issued + timedelta_hours 1) ->
  exists token,
    generate_password_reset_token lib settings issued email = Ret token
    /\ verify_password_reset_token lib settings utcnow token = Ret (VStr email).
Proof.
  intros Hlib Hfresh.
  destruct (Hlib (issued + timedelta_hours 1) email) as (token & Henc & Hdec).
  exists token. split; [exact Henc|].
  unfold verify_password_reset_token, decode_access_token.
  rewrite (Hdec utcnow Hfresh). simpl.
  rewrite bool_decide_false.
  - unfold getattr, decoded_claims. by rewrite lookup_insert_ne, lookup_insert_eq.
  - unfold decoded_claims. intros Heq.
    apply (f_equal (fun m : dict => m !! "exp")) in Heq.
    by rewrite lookup_insert_eq, lookup_empty in Heq.
Qed.

(** Every [JWTError], subclasses included, is turned into [None]. *)
Lemma decode_access_token_catches lib settings (utcnow : Z) (token : string) e :
  jwt_decode lib utcnow token (SECRET_KEY settings) [ALGORITHM settings] = Raise e ->
  is_JWTError e = true ->
  decode_access_token lib settings utcnow token = Ret None.
Proof. unfold decode_access_token. by intros -> ->. Qed.

(** The stand-in with python-jose's [exp] check still round-trips the
    tokens [create_access_token] makes. *)
Lemma Fake_int_exp_round_trip (key alg : string) :
  jose_round_trip Fake.lib_int_exp key alg.
Proof.
  intros expire sub. destruct (Fake_round_trip key alg expire sub)
    as (token & Henc & Hdec).
  exists token. split; [exact Henc|]. intros utcnow Hle.
  cbn [jwt_encode jwt_decode Fake.lib Fake.lib_int_exp] in *.
  unfold Fake.encode in Henc.
  rewrite lookup_insert_eq, lookup_insert_ne, lookup_insert_eq in Henc by done.
  injection Henc as <-. unfold Fake.decode_int_exp.
  rewrite !Fake_unframe_framed. unfold Fake.enc_Z at 1.
  rewrite bool_decide_false by (by destruct (_ <? _)).
  by apply Hdec.
Qed.

(** C6. [decode_access_token] does raise on some strings. Its handler is
    [except jwt.JWTError] and nothing else: for every library it returns
    the payload when [jwt.decode] returns one and [None] when [jwt.decode]
    raises a [JWTError] or a subclass, and any other exception of
    [jwt.decode] leaves it. python-jose has such a path: on a correctly
    signed token whose [exp] is null its [exp] check raises [TypeError];
    at that token [decode_access_token] raises where the claim, and the
    docstring, promise [None]. *)
Theorem decode_access_token_raises_TypeError :
  decode_access_token Fake.lib_int_exp default_settings 0
    (Fake.null_exp_token (SECRET_KEY default_settings) "HS256" "alice@example.com")
  = Raise TypeError
  /\ (forall lib settings (utcnow : Z) (token : string) e,
        jwt_decode lib utcnow token (SECRET_KEY settings) [ALGORITHM settings]
          = Raise e ->
        is_JWTError e = false ->
        decode_access_token lib settings utcnow token = Raise e)
  /\ (forall lib settings (utcnow : Z) (token : string) e,
        jwt_decode lib utcnow token (SECRET_KEY settings) [ALGORITHM settings]
          = Raise e ->
        is_JWTError e = true ->
        decode_access_token lib settings utcnow token = Ret None)
  /\ (forall lib settings (utcnow : Z) (token : string) payload,
        jwt_decode lib utcnow token (SECRET_KEY settings) [ALGORITHM settings]
          = Ret payload ->
        decode_access_token lib settings utcnow token = Ret (Some payload))
  /\ ~ (forall lib settings (utcnow : Z) (token : string),
          exists r, decode_access_token lib settings utcnow token = Ret r).
Proof.
  assert (H : decode_access_token Fake.lib_int_exp default_settings 0
                (Fake.null_exp_token (SECRET_KEY default_settings) "HS256"
                   "alice@example.com")
              = Raise TypeError) by (vm_compute; reflexivity).
  split; [exact H|]. split; [|split; [|split]].
  - intros lib settings utcnow token e He Hother.
    unfold decode_access_token. by rewrite He, Hother.
  - intros lib settings utcnow token e. apply decode_access_token_catches.
  - intros lib settings utcnow token payload Hdec.
    unfold decode_access_token. by rewrite Hdec.
  - intros Hall.
    destruct (Hall Fake.lib_int_exp default_settings 0
                (Fake.null_exp_token (SECRET_KEY default_settings) "HS256"
                   "alice@example.com")) as [r Hr].
    rewrite H in Hr. discriminate Hr.
Qed.

(* ===================================================================== *)
(** ** Removing and updating by id                                        *)
(* ===================================================================== *)

(** X11. [remove] of an id no row has returns [None] and leaves the table
    as it is; otherwise it returns the first row with the id and deletes
    every row with it. In both cases no row with the id is left, the
    other rows keep their order, and removing the id again returns [None]
    and changes nothing. *)
Theorem CRUDBase_remove_spec (id : Z) (db : list Entity) :
  let outcome := CRUDBase_remove id db in
  (CRUDBase_get db id = None -> outcome = (Ret None, db))
  /\ (forall obj, CRUDBase_get db id = Some obj ->
        outcome = (Ret (Some obj), delete_row id db))
  /\ CRUDBase_get (snd outcome) id = None
  /\ snd outcome = filter (fun row : Entity => row !! "id" ≠ Some (VInt id)) db
  /\ CRUDBase_remove id (snd outcome) = (Ret None, snd outcome).
Proof.
  intros outcome. subst outcome. unfold CRUDBase_remove.
  assert (Hgone : CRUDBase_get (delete_row id db) id = None)
    by apply delete_row_spec.
  destruct (CRUDBase_get db id) as [obj|] eqn:Hget; cbn [snd].
  - split; [discriminate|]. split.
    { intros obj' Hobj. by injection Hobj as <-. }
    split; [exact Hgone|]. split; [reflexivity|]. by rewrite Hgone.
  - split; [reflexivity|]. split; [discriminate|]. split; [exact Hget|]. split.
    + apply CRUDBase_get_None in Hget. clear Hgone.
      induction Hget as [|row rows Hrow _ IH]; [reflexivity|].
      rewrite filter_cons_True by done. f_equal. exact IH.
    + by rewrite Hget.
Qed.

Lemma CRUDBase_remove_spec_witness :
  CRUDBase_remove 1 Fake.users = (Ret (Some Fake.alice), [Fake.root])
  /\ CRUDBase_remove 1 [Fake.root] = (Ret None, [Fake.root]).
Proof.
  destruct (CRUDBase_remove_spec 1 Fake.users) as (_ & Hfound & _).
  destruct (CRUDBase_remove_spec 1 [Fake.root]) as (Hnone & _).
  split.
  - rewrite (Hfound Fake.alice eq_refl). reflexivity.
  - apply Hnone. reflexivity.
Defined.

(** Looking a row up by id after [UPDATE ... WHERE id = pk]. *)
Lemma CRUDBase_get_replace_row (pk id : Z) (new : Entity) (rows : list Entity) :
  new !! "id" = Some (VInt pk) ->
  CRUDBase_get (replace_row (Some (VInt pk)) new rows) id =
    if decide (id = pk)
    then (fun _ => new) <$> CRUDBase_get rows id
    else CRUDBase_get rows id.
Proof.
  intros Hnew. unfold CRUDBase_get, replace_row.
  destruct (decide (id = pk)) as [->|Hne];
    induction rows as [|row rows IH]; cbn [fmap list_fmap find]; try done.
  - destruct (decide (row !! "id" = Some (VInt pk))) as [Hrow|Hrow].
    + by rewrite Hnew, Hrow, !bool_decide_true.
    + by rewrite !bool_decide_false.
  - destruct (decide (row !! "id" = Some (VInt pk))) as [Hrow|Hrow].
    + rewrite Hnew, Hrow, !bool_decide_false by congruence. exact IH.
    + by rewrite IH.
Qed.

(** The dump of a [UserUpdate] has no [id] and no [updated_at]. *)
Lemma model_dump_no_id (u : UserUpdate) :
  UserUpdate_model_dump_exclude_unset u !! "id" = None.
Proof.
  unfold UserUpdate_model_dump_exclude_unset.
  by rewrite !lookup_dump_field_ne, lookup_empty.
Qed.

(** What [commit_update] does to the table. *)
Lemma commit_update_table cols utcnow (old new e' : Entity) (rows rows' : list Entity) :
  commit_update cols utcnow old new rows = (Ret e', rows') ->
  (rows' = rows /\ e' = old /\ new = old)
  \/ rows' = replace_row (old !! "id") e' rows.
Proof.
  unfold commit_update. intros H.
  destruct (decide (new = old)) as [->|Hne].
  { injection H as <- <-. by left. }
  destruct (constraints_ok _ _); [|discriminate].
  injection H as <- <-. by right.
Qed.

(** X12. [PUT /users/{user_id}] (the handler behind the admin gate): an id
    no row has gives 404 and the table as it was. When the handler
    returns, the returned user is what a lookup of the id finds
    afterwards, the table has as many rows as before, and a lookup of any
    other id finds what it found before. *)
Theorem update_user_then_get lib (utcnow : Z) (salt : string) (user_id : Z)
    (user_in : UserUpdate) (current_user : Entity) (db : list Entity) :
  let outcome := update_user lib utcnow salt user_id user_in current_user db in
  (CRUDBase_get db user_id = None ->
     outcome = (Raise (HTTPException 404 "User not found"), db))
  /\ (forall user db', outcome = (Ret user, db') ->
        CRUDBase_get db' user_id = Some user
        /\ length db' = length db
        /\ forall other, other ≠ user_id ->
             CRUDBase_get db' other = CRUDBase_get db other).
Proof.
  intros outcome. subst outcome. unfold update_user. split; [by intros ->|].
  intros user db' H.
  destruct (CRUDBase_get db user_id) as [found|] eqn:Hget; [|discriminate].
  pose proof (CRUDBase_get_Some _ _ _ Hget) as [Hin Hid].
  assert (Hkeep : exists update_data : dict,
            update_data !! "id" = None
            /\ CRUDBase_update User_columns UserUpdate
                 UserUpdate_model_dump_exclude_unset utcnow found
                 (inr update_data) db = (Ret user, db')).
  { unfold CRUDUser_update in H.
    destruct (_ !! "password") as [password|] eqn:Hpw.
    - destruct (get_password_hash lib salt password) as [hashed|e];
        [|discriminate].
      eexists. split; [|exact H].
      rewrite lookup_insert_ne, lookup_delete_ne by done.
      apply model_dump_no_id.
    - eexists. split; [|exact H]. apply model_dump_no_id. }
  destruct Hkeep as (update_data & Hnoid & Hupd).
  assert (Huid : user !! "id" = Some (VInt user_id)).
  { rewrite (CRUDBase_update_dict_lookup _ _ _ _ _ _ _ "id" Hupd) by done.
    by rewrite Hid, Hnoid. }
  unfold CRUDBase_update in Hupd.
  apply commit_update_table in Hupd as [[-> [-> _]] | ->].
  - done.
  - rewrite Hid. split; [|split].
    + rewrite CRUDBase_get_replace_row by done.
      rewrite decide_True by done. by rewrite Hget.
    + unfold replace_row. by rewrite length_fmap.
    + intros other Hne. rewrite CRUDBase_get_replace_row by done.
      by rewrite decide_False.
Qed.

Lemma update_user_then_get_witness :
  fst (update_user Fake.lib 1000 "salt" 7 Fake.disable Fake.root Fake.users)
    = Raise (HTTPException 404 "User not found")
  /\ exists user db',
       update_user Fake.lib 1000 "salt" 1 Fake.disable Fake.root Fake.users
         = (Ret user, db')
       /\ CRUDBase_get db' 1 = Some user
       /\ CRUDBase_get db' 2 = Some Fake.root.
Proof.
  split.
  - destruct (update_user_then_get Fake.lib 1000 "salt" 7 Fake.disable
                Fake.root Fake.users) as [H404 _].
    rewrite H404; reflexivity.
  - destruct (update_user_then_get Fake.lib 1000 "salt" 1 Fake.disable
                Fake.root Fake.users) as [_ Hret].
    destruct (update_user Fake.lib 1000 "salt" 1 Fake.disable Fake.root Fake.users)
      as [[user|e] db'] eqn:Hcall.
    2: { assert (Hc : is_Ret (fst (update_user Fake.lib 1000 "salt" 1
                  Fake.disable Fake.root Fake.users)) = true)
           by (vm_compute; reflexivity).
         rewrite Hcall in Hc. discriminate Hc. }
    exists user, db'. split; [reflexivity|].
    destruct (Hret user db' eq_refl) as (Hfound & _ & Hother).
    split; [exact Hfound|]. rewrite Hother by discriminate. reflexivity.
Defined.

(** X13. [CRUDBase.update] reads only the payload keys that are attributes
    of the object: a payload none of whose keys is one returns the object
    unchanged and writes nothing, and no update ever gives the returned
    object an attribute it did not have ([updated_at] aside). *)
Theorem CRUDBase_update_ignores_unknown_keys (model : list Column)
    (utcnow : Z) (db_obj : Entity) (update_data : dict) (db : list Entity) :
  let outcome :=
    CRUDBase_update model UserUpdate UserUpdate_model_dump_exclude_unset
      utcnow db_obj (inr update_data) db in
  ((forall field : string, is_Some (update_data !! field) -> db_obj !! field = None) ->
     outcome = (Ret db_obj, db))
  /\ (forall e' db' (field : string), outcome = (Ret e', db') ->
        field ≠ "updated_at" -> db_obj !! field = None -> e' !! field = None).
Proof.
  intros outcome. subst outcome. split.
  - intros Hunknown. unfold CRUDBase_update.
    assert (Hsame : update_fields (map_to_list db_obj).*1 update_data db_obj
                    = db_obj).
    { apply map_eq. intros field. rewrite update_fields_merged.
      destruct (db_obj !! field) as [old|] eqn:Hold; [|done].
      destruct (update_data !! field) as [value|] eqn:Hval; [|done].
      assert (Hnone : db_obj !! field = None) by (apply Hunknown; eauto).
      congruence. }
    rewrite Hsame. unfold commit_update. by rewrite decide_True.
  - intros e' db' field H Hf Hnone.
    rewrite (CRUDBase_update_dict_lookup _ _ _ _ _ _ _ field H) by done.
    by rewrite Hnone.
Qed.

Lemma CRUDBase_update_ignores_unknown_keys_witness :
  CRUDBase_update User_columns UserUpdate UserUpdate_model_dump_exclude_unset
    1000 Fake.alice (inr {["password" := VStr "plaintext-secret"]}) Fake.users
  = (Ret Fake.alice, Fake.users).
Proof.
  destruct (CRUDBase_update_ignores_unknown_keys User_columns 1000 Fake.alice
              {["password" := VStr "plaintext-secret"]} Fake.users)
    as [Hignored _].
  apply Hignored. intros field [value Hfield].
  apply lookup_singleton_Some in Hfield as [<- _]. reflexivity.
Defined.

(* ===================================================================== *)
(** ** Creating users                                                     *)
(* ===================================================================== *)

(** A unique column of a table that satisfies its constraints holds no
    value twice. *)
Lemma constraints_ok_unique (cols : list Column) (rows : list Entity) (c : Column) :
  constraints_ok cols rows = true -> c ∈ cols -> col_unique c = true ->
  NoDup (filter (fun v => v ≠ VNone)
           ((fun row : Entity => getattr row (col_name c)) <$> rows)).
Proof.
  unfold constraints_ok, unique_ok. intros [_ Hu]%andb_true_iff Hc Huniq.
  rewrite forallb_forall in Hu. apply list_elem_of_In, Hu in Hc.
  rewrite Huniq in Hc. simpl in Hc. by apply bool_decide_eq_true in Hc.
Qed.

(** In such a table a row appended last shares no value of a unique
    column with the rows before it. *)
Lemma unique_last_fresh (f : Entity -> pyval) (rows : list Entity) (new row : Entity) :
  NoDup (filter (fun v => v ≠ VNone) (f <$> (rows ++ [new]))) ->
  row ∈ rows -> f new ≠ VNone -> f row ≠ f new.
Proof.
  rewrite fmap_app, filter_app. intros [_ [Hdisj _]]%NoDup_app Hrow Hnn Heq.
  apply (Hdisj (f new)).
  - apply list_elem_of_filter. split; [done|].
    rewrite <- Heq. apply list_elem_of_fmap. by exists row.
  - simpl. rewrite filter_cons_True by done. apply list_elem_of_here.
Qed.

(** In such a table two rows that agree on a unique column are the same
    row. *)
Lemma unique_inj (f : Entity -> pyval) (rows : list Entity) (r1 r2 : Entity) :
  NoDup (filter (fun v => v ≠ VNone) (f <$> rows)) ->
  r1 ∈ rows -> r2 ∈ rows -> f r1 = f r2 -> f r1 ≠ VNone -> r1 = r2.
Proof.
  induction rows as [|row rows IH]; intros Hnd H1 H2 Heq Hnn.
  { by apply elem_of_nil in H1. }
  rewrite fmap_cons in Hnd.
  assert (Hfresh : f row ≠ VNone -> forall r, r ∈ rows -> f r ≠ f row).
  { intros Hrow r Hr Hsame. rewrite filter_cons_True in Hnd by done.
    apply NoDup_cons in Hnd as [Hnotin _]. apply Hnotin.
    apply list_elem_of_filter. split; [done|].
    rewrite <- Hsame. apply list_elem_of_fmap. by exists r. }
  assert (Hrest : NoDup (filter (fun v => v ≠ VNone) (f <$> rows))).
  { destruct (decide (f row ≠ VNone)) as [Hrow|Hrow].
    - rewrite filter_cons_True in Hnd by done. by apply NoDup_cons in Hnd as [_ ?].
    - by rewrite filter_cons_False in Hnd by done. }
  apply elem_of_cons in H1 as [->|H1]; apply elem_of_cons in H2 as [->|H2].
  - done.
  - exfalso. by apply (Hfresh Hnn r2 H2).
  - exfalso. apply (Hfresh (eq_ind _ (fun v => v ≠ VNone) Hnn _ Heq) r1 H1 Heq).
  - by apply IH.
Qed.

(** Looking an email up in a table made of two parts. *)
Lemma get_by_email_app (db1 db2 : list Entity) (email : string) :
  get_by_email (db1 ++ db2) email =
    match get_by_email db1 email with
    | Some user => Some user
    | None => get_by_email db2 email
    end.
Proof.
  unfold get_by_email. induction db1 as [|row db1 IH]; simpl; [done|].
  by destruct (bool_decide _).
Qed.

(** The columns [email] and [id] of [User] are unique. *)
Lemma User_email_unique :
  {| col_name := "email"; col_nullable := false; col_unique := true |}
    ∈ User_columns.
Proof. do 3 apply list_elem_of_further. apply list_elem_of_here. Qed.

(** What [commit_insert] does. *)
Lemma commit_insert_Ret cols (new e' : Entity) (rows rows' : list Entity) :
  commit_insert cols new rows = (Ret e', rows') ->
  e' = new /\ rows' = rows ++ [new] /\ constraints_ok cols rows' = true.
Proof.
  unfold commit_insert. intros H.
  destruct (constraints_ok cols (rows ++ [new])) eqn:Hok; [|discriminate].
  by injection H as <- <-.
Qed.

(** What a returning [CRUDUser.create] stored. *)
Lemma CRUDUser_create_Ret lib (next_id created_at updated_at : Z)
    (salt : string) (obj_in : UserCreate) (db db' : list Entity) (user : Entity) :
  CRUDUser_create lib next_id created_at updated_at salt obj_in db = (Ret user, db') ->
  (exists hashed,
     get_password_hash lib salt (VStr (uc_password obj_in)) = Ret hashed
     /\ user !! "hashed_password" = Some (VStr hashed))
  /\ user !! "password" = None
  /\ user !! "email" = Some (VStr (uc_email obj_in))
  /\ user !! "full_name" = Some (from_option VStr VNone (uc_full_name obj_in))
  /\ user !! "is_active" = Some (VBool (uc_is_active obj_in))
  /\ user !! "is_superuser" = Some (VBool (uc_is_superuser obj_in))
  /\ user !! "id" = Some (VInt next_id)
  /\ db' = db ++ [user]
  /\ constraints_ok User_columns db' = true.
Proof.
  unfold CRUDUser_create.
  destruct (get_password_hash lib salt (VStr (uc_password obj_in)))
    as [hashed|e0]; [|discriminate].
  intros H. apply commit_insert_Ret in H as (-> & -> & Hok).
  split; [exists hashed; split; [done|]; by simplify_map_eq|].
  unfold UserCreate_model_dump. repeat split; try done; by simplify_map_eq.
Qed.

(** A [CRUDUser.create] that raises leaves the table as it was. *)
Lemma CRUDUser_create_Raise lib (next_id created_at updated_at : Z)
    (salt : string) (obj_in : UserCreate) (db db' : list Entity) e :
  CRUDUser_create lib next_id created_at updated_at salt obj_in db = (Raise e, db') ->
  db' = db.
Proof.
  unfold CRUDUser_create.
  destruct (get_password_hash lib salt (VStr (uc_password obj_in)))
    as [hashed|e0].
  - unfold commit_insert. destruct (constraints_ok _ _); [discriminate|].
    by intros [= _ <-].
  - by intros [= _ <-].
Qed.

(** X14. What [CRUDUser.create] stores. When it returns, the user is the
    row appended to the table, it carries the hash of the password in
    [hashed_password] and has no [password] attribute, its email, name
    and flags are those of the payload and its id is the one the sequence
    gave; the table meets its constraints. When it raises, the table is
    as it was. *)
Theorem CRUDUser_create_spec lib (next_id created_at updated_at : Z)
    (salt : string) (obj_in : UserCreate) (db : list Entity) :
  let outcome :=
    CRUDUser_create lib next_id created_at updated_at salt obj_in db in
  (forall user db', outcome = (Ret user, db') ->
     (exists hashed,
        get_password_hash lib salt (VStr (uc_password obj_in)) = Ret hashed
        /\ user !! "hashed_password" = Some (VStr hashed))
     /\ user !! "password" = None
     /\ user !! "email" = Some (VStr (uc_email obj_in))
     /\ user !! "full_name" = Some (from_option VStr VNone (uc_full_name obj_in))
     /\ user !! "is_active" = Some (VBool (uc_is_active obj_in))
     /\ user !! "is_superuser" = Some (VBool (uc_is_superuser obj_in))
     /\ user !! "id" = Some (VInt next_id)
     /\ db' = db ++ [user]
     /\ constraints_ok User_columns db' = true)
  /\ (forall e db', outcome = (Raise e, db') -> db' = db).
Proof.
  intros outcome. subst outcome. split.
  - intros user db'. apply CRUDUser_create_Ret.
  - intros e db'. apply CRUDUser_create_Raise.
Qed.

Lemma CRUDUser_create_spec_witness :
  exists user db',
    CRUDUser_create Fake.lib 3 1000 1000 "pepper"
      {| uc_email := "carol@example.com"; uc_full_name := None;
         uc_is_active := true; uc_is_superuser := false;
         uc_password := "password123" |} Fake.users = (Ret user, db')
    /\ user !! "password" = None
    /\ user !! "is_superuser" = Some (VBool false)
    /\ db' = Fake.users ++ [user].
Proof.
  destruct (CRUDUser_create_spec Fake.lib 3 1000 1000 "pepper"
              {| uc_email := "carol@example.com"; uc_full_name := None;
                 uc_is_active := true; uc_is_superuser := false;
                 uc_password := "password123" |} Fake.users) as [Hret _].
  destruct (CRUDUser_create Fake.lib 3 1000 1000 "pepper"
              {| uc_email := "carol@example.com"; uc_full_name := None;
                 uc_is_active := true; uc_is_superuser := false;
                 uc_password := "password123" |} Fake.users)
    as [[user|e] db'] eqn:Hcall.
  2: { assert (Hc : is_Ret (fst (CRUDUser_create Fake.lib 3 1000 1000 "pepper"
                {| uc_email := "carol@example.com"; uc_full_name := None;
                   uc_is_active := true; uc_is_superuser := false;
                   uc_password := "password123" |} Fake.users)) = true)
         by (vm_compute; reflexivity).
       rewrite Hcall in Hc. discriminate Hc. }
  exists user, db'. split; [reflexivity|].
  destruct (Hret user db' eq_refl)
    as (_ & Hpw & _ & _ & _ & Hsuper & _ & Hdb & _).
  by split; [|split].
Defined.

(** The email of a created user was not in the table before. *)
Lemma created_email_fresh lib (next_id created_at updated_at : Z)
    (salt : string) (obj_in : UserCreate) (db db' : list Entity) (user : Entity) :
  CRUDUser_create lib next_id created_at updated_at salt obj_in db = (Ret user, db') ->
  get_by_email db (uc_email obj_in) = None.
Proof.
  intros H.
  destruct (CRUDUser_create_Ret _ _ _ _ _ _ _ _ _ H)
    as (_ & _ & Hemail & _ & _ & _ & _ & -> & Hok).
  apply get_by_email_None, Forall_forall. intros row Hrow Hsame.
  pose proof (constraints_ok_unique _ _ _ Hok User_email_unique eq_refl) as Hnd.
  simpl in Hnd.
  apply (unique_last_fresh (fun row : Entity => getattr row "email")
           db user row Hnd Hrow).
  - unfold getattr. by rewrite Hemail.
  - unfold getattr. by rewrite Hemail, Hsame.
Qed.

(** X15. With passlib verifying the hashes it makes: a user that
    [CRUDUser.create] returned authenticates, on the table after the
    creation, with the email and the password of the payload. *)
Theorem create_then_authenticate lib (next_id created_at updated_at : Z)
    (salt : string) (obj_in : UserCreate) (db db' : list Entity) (user : Entity) :
  passlib_verifies_own_hash lib ->
  CRUDUser_create lib next_id created_at updated_at salt obj_in db = (Ret user, db') ->
  authenticate lib db' (uc_email obj_in) (uc_password obj_in) = Ret (Some user).
Proof.
  intros Hlib H.
  pose proof (created_email_fresh _ _ _ _ _ _ _ _ _ H) as Hfresh.
  destruct (CRUDUser_create_Ret _ _ _ _ _ _ _ _ _ H)
    as ((hashed & Hhash & Hstored) & _ & Hemail & _ & _ & _ & _ & -> & _).
  rewrite authenticate_unfold, get_by_email_app, Hfresh.
  unfold get_by_email. simpl. rewrite bool_decide_true by done.
  unfold getattr. rewrite Hstored. simpl.
  unfold verify_password. by rewrite (Hlib salt _ hashed Hhash).
Qed.

Lemma substring_all (s : string) : String.substring 0 (String.length s) s = s.
Proof. induction s as [|c s IH]; simpl; [done|]. by rewrite IH. Qed.

Lemma Fake_verifies_own_hash : passlib_verifies_own_hash Fake.lib.
Proof.
  intros salt secret hashed. cbn [pwd_hash pwd_verify Fake.lib].
  unfold Fake.hash, Fake.verify. intros [= <-].
  change (Fake.bcrypt_ident +:+ Fake.framed salt secret)
    with (String "$"%char (String "2"%char (String "b"%char (String "$"%char
            (Fake.framed salt secret))))).
  cbn [String.prefix Fake.bcrypt_ident String.length Nat.sub String.substring].
  rewrite Nat.sub_0_r, substring_all, Fake_unframe_framed.
  destruct (ascii_dec "$" "$") as [_|Hne]; [|by destruct Hne].
  destruct (ascii_dec "2" "2") as [_|Hne]; [|by destruct Hne].
  destruct (ascii_dec "b" "b") as [_|Hne]; [|by destruct Hne].
  assert (Hp : forall s, String.prefix EmptyString s = true) by (by intros []).
  by rewrite Hp, bool_decide_true.
Qed.

Lemma create_then_authenticate_witness :
  exists user db',
    CRUDUser_create Fake.lib 3 1000 1000 "pepper"
      {| uc_email := "carol@example.com"; uc_full_name := None;
         uc_is_active := true; uc_is_superuser := false;
         uc_password := "password123" |} Fake.users = (Ret user, db')
    /\ authenticate Fake.lib db' "carol@example.com" "password123"
       = Ret (Some user).
Proof.
  destruct (CRUDUser_create Fake.lib 3 1000 1000 "pepper"
              {| uc_email := "carol@example.com"; uc_full_name := None;
                 uc_is_active := true; uc_is_superuser := false;
                 uc_password := "password123" |} Fake.users)
    as [[user|e] db'] eqn:Hcall.
  2: { assert (Hc : is_Ret (fst (CRUDUser_create Fake.lib 3 1000 1000 "pepper"
                {| uc_email := "carol@example.com"; uc_full_name := None;
                   uc_is_active := true; uc_is_superuser := false;
                   uc_password := "password123" |} Fake.users)) = true)
         by (vm_compute; reflexivity).
       rewrite Hcall in Hc. discriminate Hc. }
  exists user, db'. split; [reflexivity|].
  exact (create_then_authenticate Fake.lib 3 1000 1000 "pepper" _ _ _ _
           Fake_verifies_own_hash Hcall).
Defined.

(** X16. [POST /users] (the handler behind the admin gate): an email that
    is registered gives 400 and the table as it was. When the handler
    returns, the email was not registered before, the user is appended
    to the table and is what a lookup of the email finds afterwards, and
    a lookup of any other email finds what it found before, so no account
    is shadowed or replaced. *)
Theorem create_user_spec lib (next_id created_at updated_at : Z) (salt : string)
    (user_in : UserCreate) (current_user : Entity) (db : list Entity) :
  let outcome :=
    create_user lib next_id created_at updated_at salt user_in current_user db in
  (forall existing, get_by_email db (uc_email user_in) = Some existing ->
     outcome = (Raise (HTTPException 400
                  "The user with this email already exists in the system"), db))
  /\ (forall user db', outcome = (Ret user, db') ->
        get_by_email db (uc_email user_in) = None
        /\ db' = db ++ [user]
        /\ get_by_email db' (uc_email user_in) = Some user
        /\ forall other, other ≠ uc_email user_in ->
             get_by_email db' other = get_by_email db other)
  /\ (forall e db', outcome = (Raise e, db') -> db' = db).
Proof.
  intros outcome. subst outcome. unfold create_user. split; [|split].
  - by intros existing ->.
  - intros user db' H.
    destruct (get_by_email db (uc_email user_in)) as [existing|] eqn:Hget;
      [discriminate|].
    destruct (CRUDUser_create_Ret _ _ _ _ _ _ _ _ _ H)
      as (_ & _ & Hemail & _ & _ & _ & _ & -> & _).
    split; [done|]. split; [done|]. split.
    + rewrite get_by_email_app, Hget. unfold get_by_email. simpl.
      by rewrite bool_decide_true.
    + intros other Hne. rewrite get_by_email_app.
      destruct (get_by_email db other); [done|].
      unfold get_by_email. simpl. rewrite bool_decide_false; [done|].
      rewrite Hemail. congruence.
  - intros e db' H.
    destruct (get_by_email db (uc_email user_in)); [by injection H as _ <-|].
    by apply CRUDUser_create_Raise in H.
Qed.

Lemma create_user_spec_witness :
  create_user Fake.lib 3 1000 1000 "pepper"
    {| uc_email := "alice@example.com"; uc_full_name := None;
       uc_is_active := true; uc_is_superuser := true;
       uc_password := "another-password" |} Fake.root Fake.users
  = (Raise (HTTPException 400
       "The user with this email already exists in the system"), Fake.users).
Proof.
  destruct (create_user_spec Fake.lib 3 1000 1000 "pepper"
              {| uc_email := "alice@example.com"; uc_full_name := None;
                 uc_is_active := true; uc_is_superuser := true;
                 uc_password := "another-password" |} Fake.root Fake.users)
    as [Hdup _].
  apply (Hdup Fake.alice). reflexivity.
Defined.

(* ===================================================================== *)
(** ** The first superuser                                                *)
(* ===================================================================== *)

(** Lengths are in characters: a two-byte character counts once, and a
    string without continuation bytes has as many characters as bytes. *)
Lemma py_len_le (s : string) : (py_len s <= String.length s)%nat.
Proof.
  induction s as [|c s IH]; simpl; [done|].
  destruct (utf8_continuation c); simpl; lia.
Qed.

Lemma py_len_two_byte_character :
  py_len "é" = 1%nat /\ String.length "é" = 2%nat.
Proof. by split. Qed.

(** What a [UserCreate] that passed its validation holds. *)
Lemma UserCreate_init_Some (EmailStr : string -> option string)
    (email password : string) (full_name : option string)
    (is_superuser is_active : bool) (user_in : UserCreate) :
  UserCreate_init EmailStr email password full_name is_superuser is_active
    = Some user_in ->
  EmailStr email = Some (uc_email user_in)
  /\ uc_password user_in = password
  /\ uc_is_superuser user_in = is_superuser
  /\ uc_is_active user_in = is_active
  /\ (8 <= py_len password <= 100)%nat.
Proof.
  unfold UserCreate_init. destruct (EmailStr email) as [address|]; [|done].
  destruct (length_between 8 100 password) eqn:Hlen; [|done].
  destruct (match full_name with Some _ => _ | None => _ end); [|done].
  simpl. intros [= <-]. simpl. repeat split; try done;
    apply bool_decide_eq_true in Hlen; lia.
Qed.

(** X17. [startup_event] and the table. It adds at most one row, and a row
    it adds is an active superuser, without a [password] attribute, whose
    email is the configured address as [EmailStr] normalises it. A
    configured password of fewer than 8 characters fails the [UserCreate]
    validation, the error is swallowed and no superuser is created. Once
    the event has added the superuser, running it again, with whatever
    id, time and salt, changes nothing: either the configured address is
    found, or the second insert fails on the unique email. *)
Theorem startup_event_spec lib (EmailStr : string -> option string)
    (email password : string) (next_id created_at updated_at : Z)
    (salt : string) (db : list Entity) :
  let db' := startup_event lib EmailStr email password
               next_id created_at updated_at salt db in
  (db' = db
   \/ exists user address,
        db' = db ++ [user]
        /\ EmailStr email = Some address
        /\ user !! "email" = Some (VStr address)
        /\ is_superuser user = VBool true
        /\ is_active user = VBool true
        /\ user !! "password" = None)
  /\ ((py_len password < 8)%nat -> db' = db)
  /\ (db' ≠ db -> forall next_id' created_at' updated_at' salt',
        startup_event lib EmailStr email password
          next_id' created_at' updated_at' salt' db' = db').
Proof.
  intros db'.
  assert (Hcases : db' = db
    \/ exists user address,
         db' = db ++ [user]
         /\ EmailStr email = Some address
         /\ user !! "email" = Some (VStr address)
         /\ is_superuser user = VBool true
         /\ is_active user = VBool true
         /\ user !! "password" = None).
  { subst db'. unfold startup_event.
    destruct (get_by_email db email); [by left|].
    destruct (UserCreate_init _ _ _ _ _ _) as [user_in|] eqn:Hinit; [|by left].
    apply UserCreate_init_Some in Hinit as (Haddr & _ & Hs & Ha & _).
    destruct (CRUDUser_create lib next_id created_at updated_at salt user_in db)
      as [[user|e] db1] eqn:Hcall; simpl.
    - destruct (CRUDUser_create_Ret _ _ _ _ _ _ _ _ _ Hcall)
        as (_ & Hpw & Hemail & _ & Hactive & Hsuper & _ & -> & _).
      right. exists user, (uc_email user_in).
      unfold is_superuser, is_active, getattr.
      by rewrite Hactive, Hsuper, Hs, Ha.
    - left. by apply CRUDUser_create_Raise in Hcall. }
  split; [exact Hcases|]. split.
  - intros Hshort. subst db'. unfold startup_event.
    destruct (get_by_email db email); [done|].
    destruct (UserCreate_init _ _ _ _ _ _) as [user_in|] eqn:Hinit; [|done].
    apply UserCreate_init_Some in Hinit as (_ & _ & _ & _ & Hlen). lia.
  - intros Hchanged next_id' created_at' updated_at' salt'.
    destruct Hcases as [?|(user & address & Hdb' & Haddr & Hemail & _)]; [done|].
    unfold startup_event at 1.
    destruct (get_by_email db' email); [done|].
    destruct (UserCreate_init _ _ _ _ _ _) as [user_in|] eqn:Hinit; [|done].
    apply UserCreate_init_Some in Hinit as (Haddr' & _).
    rewrite Haddr in Haddr'. injection Haddr' as Haddr'.
    destruct (CRUDUser_create lib next_id' created_at' updated_at' salt' user_in db')
      as [[user'|e] db2] eqn:Hcall; simpl.
    + apply created_email_fresh in Hcall. rewrite <- Haddr' in Hcall.
      rewrite Hdb', get_by_email_app in Hcall.
      destruct (get_by_email db address); [done|].
      unfold get_by_email in Hcall. simpl in Hcall.
      by rewrite bool_decide_true in Hcall.
    + by apply CRUDUser_create_Raise in Hcall.
Qed.

Lemma startup_event_spec_witness :
  let EmailStr := fun s : string =>
    if bool_decide (s = "admin@EXAMPLE.COM") then Some "admin@example.com"
    else Some s in
  startup_event Fake.lib EmailStr "admin@EXAMPLE.COM" "pässwör"
    3 1000 1000 "pepper" Fake.users = Fake.users
  /\ let db' := startup_event Fake.lib EmailStr "admin@EXAMPLE.COM"
                  "changethis" 3 1000 1000 "pepper" Fake.users in
     length db' = 3%nat
     /\ get_by_email db' "admin@EXAMPLE.COM" = None
     /\ startup_event Fake.lib EmailStr "admin@EXAMPLE.COM" "changethis"
          4 2000 2000 "salt" db' = db'.
Proof.
  intros EmailStr. split.
  - destruct (startup_event_spec Fake.lib EmailStr "admin@EXAMPLE.COM"
                "pässwör" 3 1000 1000 "pepper" Fake.users) as (_ & Hshort & _).
    apply Hshort. vm_compute. lia.
  - intros db'.
    assert (Hlen : length db' = 3%nat) by (vm_compute; reflexivity).
    split; [exact Hlen|]. split; [vm_compute; reflexivity|].
    destruct (startup_event_spec Fake.lib EmailStr "admin@EXAMPLE.COM"
                "changethis" 3 1000 1000 "pepper" Fake.users) as (_ & _ & Hagain).
    apply Hagain. fold db'. intros Hsame. rewrite Hsame in Hlen.
    discriminate Hlen.
Defined.

(* ===================================================================== *)
(** ** The authentication chain                                           *)
(* ===================================================================== *)

(** The claims of a token made by [create_access_token] pass the
    [TokenPayload] validation with their subject. *)
Lemma TokenPayload_sub_decoded_claims (str_is_int : string -> bool)
    (expire : Z) (sub : string) :
  TokenPayload_sub str_is_int (decoded_claims expire sub) = Some (Some sub).
Proof.
  unfold TokenPayload_sub, decoded_claims.
  by rewrite lookup_insert_eq, lookup_insert_ne, lookup_insert_eq.
Qed.


(** [get_current_user] on a token that decodes to such claims. *)
Lemma get_current_user_decoded lib settings (str_is_int : string -> bool)
    (utcnow : Z) (db : list Entity) (token : string) (expire : Z) (sub : string) :
  jwt_decode lib utcnow token (SECRET_KEY settings) [ALGORITHM settings]
    = Ret (decoded_claims expire sub) ->
  get_current_user lib settings str_is_int utcnow db token =
    match get_by_email db sub with
    | None => Raise credentials_exception
    | Some user => Ret user
    end.
Proof.
  intros Hdec. unfold get_current_user.
  by rewrite Hdec, TokenPayload_sub_decoded_claims.
Qed.






(** What a successful [login] did. *)
Lemma login_Ret lib settings (utcnow : Z) (db : list Entity)
    (username password : string) (token : Token) :
  login lib settings utcnow db username password = Ret token ->
  exists user,
    authenticate lib db username password = Ret (Some user)
    /\ get_by_email db username = Some user
    /\ getattr user "email" = VStr username
    /\ truthy (is_active user) = true
    /\ create_access_token lib settings utcnow (VStr username) None
       = Ret (access_token token).
Proof.
  unfold login. intros H.
  destruct (authenticate lib db username password) as [[user|]|e] eqn:Hauth;
    simpl in H; try discriminate.
  destruct (truthy (is_active user)) eqn:Hactive; simpl in H; [|discriminate].
  destruct (create_access_token _ _ _ _ _) as [tok|e] eqn:Htok;
    simpl in H; [|discriminate].
  injection H as <-. exists user.
  rewrite authenticate_unfold in Hauth.
  destruct (get_by_email db username) as [found|] eqn:Hget; [|discriminate].
  destruct (verify_password _ _ _) as [[|]|]; try discriminate.
  injection Hauth as ->.
  pose proof (get_by_email_Some _ _ _ Hget) as [_ Hemail].
  assert (Hattr : getattr user "email" = VStr username)
    by (unfold getattr; by rewrite Hemail).
  rewrite Hattr in Htok. by repeat split.
Qed.

(** The token of [create_access_token] for a subject string, decoded
    before its expiry. *)
Lemma created_token_decodes lib settings (issued utcnow : Z) (subject : string)
    (expires_delta : option Z) (token : string) :
  jose_round_trip lib (SECRET_KEY settings) (ALGORITHM settings) ->
  create_access_token lib settings issued (VStr subject) expires_delta = Ret token ->
  unix_seconds utcnow <= unix_seconds (token_expiry settings issued expires_delta) ->
  jwt_decode lib utcnow token (SECRET_KEY settings) [ALGORITHM settings]
    = Ret (decoded_claims (token_expiry settings issued expires_delta) subject).
Proof.
  intros Hlib Hmake Hfresh.
  destruct (Hlib (token_expiry settings issued expires_delta) subject)
    as (token' & Henc & Hdec).
  unfold create_access_token in Hmake. simpl in Hmake.
  rewrite Henc in Hmake. injection Hmake as <-. by apply Hdec.
Qed.

(** X5. Login and the bearer token go round: with python-jose's round trip
    at the configured key and algorithm, the token a successful [login]
    returns, presented to [GET /users/me] on the same table before it
    expires, yields the very user that authenticated, and the table is
    untouched. *)
Theorem login_then_read_user_me lib settings (str_is_int : string -> bool)
    (issued utcnow : Z) (db : list Entity) (username password : string)
    (token : Token) :
  jose_round_trip lib (SECRET_KEY settings) (ALGORITHM settings) ->
  login lib settings issued db username password = Ret token ->
  unix_seconds utcnow <= unix_seconds (token_expiry settings issued None) ->
  exists user,
    authenticate lib db username password = Ret (Some user)
    /\ GET_users_me lib settings str_is_int utcnow (access_token token) db
       = (Ret user, db).
Proof.
  intros Hlib Hlogin Hfresh.
  apply login_Ret in Hlogin as (user & Hauth & Hget & _ & Hactive & Hmake).
  exists user. split; [exact Hauth|].
  unfold GET_users_me, route, Depends_active_user.
  rewrite (get_current_user_decoded _ _ _ _ _ _ _ _
             (created_token_decodes _ _ _ _ _ _ _ Hlib Hmake Hfresh)), Hget.
  simpl. unfold get_current_active_user. by rewrite Hactive.
Qed.

(** [login] for a user who authenticates and is active. *)
Lemma login_active lib settings (utcnow : Z) (db : list Entity)
    (username password : string) (user : Entity) (tok : string) :
  authenticate lib db username password = Ret (Some user) ->
  truthy (is_active user) = true ->
  create_access_token lib settings utcnow (getattr user "email") None = Ret tok ->
  login lib settings utcnow db username password
  = Ret {| access_token := tok; token_type := "bearer" |}.
Proof. unfold login. intros -> Hactive Htok. simpl. by rewrite Hactive, Htok. Qed.

Lemma login_then_read_user_me_witness :
  exists token,
    login Fake.lib default_settings 0 Fake.users "alice@example.com" "password123"
      = Ret token
    /\ GET_users_me Fake.lib default_settings (fun _ => false) 1000000
         (access_token token) Fake.users = (Ret Fake.alice, Fake.users).
Proof.
  destruct (Fake_round_trip (SECRET_KEY default_settings)
              (ALGORITHM default_settings)
              (token_expiry default_settings 0 None) "alice@example.com")
    as [tok [Henc _]].
  assert (Hlogin : login Fake.lib default_settings 0 Fake.users
                     "alice@example.com" "password123"
                   = Ret {| access_token := tok; token_type := "bearer" |}).
  { apply (login_active _ _ _ _ _ _ Fake.alice);
      [reflexivity | vm_compute; reflexivity | exact Henc]. }
  exists {| access_token := tok; token_type := "bearer" |}.
  split; [exact Hlogin|].
  destruct (login_then_read_user_me Fake.lib default_settings (fun _ => false)
              0 1000000 Fake.users "alice@example.com" "password123" _
              (Fake_round_trip _ _) Hlogin) as (user & Hauth & Hread).
  { vm_compute. discriminate. }
  assert (Hauth' : authenticate Fake.lib Fake.users "alice@example.com"
                     "password123" = Ret (Some Fake.alice)) by reflexivity.
  rewrite Hauth' in Hauth. injection Hauth as <-. exact Hread.
Defined.

(** X2. Tokens carry no purpose. With python-jose's round trip: every
    token of [create_access_token] for a subject string, the login token
    included, is accepted by [verify_password_reset_token] as a reset
    token for that subject; and a token of
    [generate_password_reset_token] for the email of a user is accepted
    by [get_current_user] as that user's bearer token. *)
Theorem tokens_are_interchangeable lib settings (str_is_int : string -> bool)
    (issued utcnow : Z) (subject : string) (token : string) :
  jose_round_trip lib (SECRET_KEY settings) (ALGORITHM settings) ->
  (forall expires_delta,
     create_access_token lib settings issued (VStr subject) expires_delta
       = Ret token ->
     unix_seconds utcnow
       <= unix_seconds (token_expiry settings issued expires_delta) ->
     verify_password_reset_token lib settings utcnow token = Ret (VStr subject))
  /\ (forall db user,
        generate_password_reset_token lib settings issued subject = Ret token ->
        unix_seconds utcnow <= unix_seconds (issued + timedelta_hours 1) ->
        get_by_email db subject = Some user ->
        get_current_user lib settings str_is_int utcnow db token = Ret user).
Proof.
  intros Hlib. split.
  - intros expires_delta Hmake Hfresh.
    unfold verify_password_reset_token, decode_access_token.
    rewrite (created_token_decodes _ _ _ _ _ _ _ Hlib Hmake Hfresh). simpl.
    rewrite bool_decide_false.
    + unfold getattr, decoded_claims.
      by rewrite lookup_insert_ne, lookup_insert_eq.
    + unfold decoded_claims. intros Heq.
      apply (f_equal (fun m : dict => m !! "exp")) in Heq.
      by rewrite lookup_insert_eq, lookup_empty in Heq.
  - intros db user Hmake Hfresh Hget.
    unfold generate_password_reset_token in Hmake.
    rewrite (get_current_user_decoded _ _ _ _ _ _
               (token_expiry settings issued (Some (timedelta_hours 1))) subject).
    + by rewrite Hget.
    + by apply (created_token_decodes _ _ issued).
Qed.

Lemma tokens_are_interchangeable_witness :
  exists token,
    generate_password_reset_token Fake.lib default_settings 0 "alice@example.com"
      = Ret token
    /\ get_current_user Fake.lib default_settings (fun _ => false) 1000000
         Fake.users token = Ret Fake.alice
    /\ verify_password_reset_token Fake.lib default_settings 1000000 token
       = Ret (VStr "alice@example.com").
Proof.
  destruct (Fake_round_trip (SECRET_KEY default_settings)
              (ALGORITHM default_settings)
              (token_expiry default_settings 0 (Some (timedelta_hours 1)))
              "alice@example.com") as [tok [Henc _]].
  assert (Hmake : generate_password_reset_token Fake.lib default_settings 0
                    "alice@example.com" = Ret tok) by exact Henc.
  assert (Hfresh : unix_seconds 1000000 <= unix_seconds (0 + timedelta_hours 1))
    by (vm_compute; discriminate).
  destruct (tokens_are_interchangeable Fake.lib default_settings (fun _ => false)
              0 1000000 "alice@example.com" tok (Fake_round_trip _ _))
    as [Hreset Hbearer].
  exists tok. split; [exact Hmake|]. split.
  - apply Hbearer; [exact Hmake | exact Hfresh | reflexivity].
  - apply (Hreset (Some (timedelta_hours 1))); [exact Hmake | exact Hfresh].
Defined.

(** A column that is not nullable holds a value in every row of a table
    that satisfies its constraints. *)
Lemma constraints_ok_not_null (cols : list Column) (rows : list Entity)
    (row : Entity) (c : Column) :
  constraints_ok cols rows = true -> row ∈ rows -> c ∈ cols ->
  col_nullable c = false -> getattr row (col_name c) ≠ VNone.
Proof.
  unfold constraints_ok, not_null_ok. intros [Hnn _]%andb_true_iff Hrow Hc Hnull.
  rewrite forallb_forall in Hnn. apply list_elem_of_In, Hnn in Hrow.
  rewrite forallb_forall in Hrow. apply list_elem_of_In, Hrow in Hc.
  rewrite Hnull in Hc. simpl in Hc.
  apply negb_true_iff, bool_decide_eq_false in Hc. exact Hc.
Qed.

(** X6. A token stops working when its user is deleted: on a table that
    meets its constraints, a token [get_current_user] resolved to a user
    is answered with 401 once [DELETE /users/{id}] has removed that
    user. *)
Theorem deleted_user_token_rejected lib settings (str_is_int : string -> bool)
    (utcnow : Z) (token : string) (user_id : Z) (current_user user : Entity)
    (db db' : list Entity) :
  constraints_ok User_columns db = true ->
  get_current_user lib settings str_is_int utcnow db token = Ret user ->
  delete_user user_id current_user db = (Ret (Some user), db') ->
  get_current_user lib settings str_is_int utcnow db' token
    = Raise (HTTPException 401 "Could not validate credentials").
Proof.
  intros Hok Hcur Hdel.
  unfold delete_user in Hdel.
  destruct (CRUDBase_get db user_id) as [found|] eqn:Hget; [|discriminate].
  destruct (py_eq _ _); [discriminate|].
  unfold CRUDBase_remove in Hdel. rewrite Hget in Hdel.
  injection Hdel as -> <-.
  pose proof (CRUDBase_get_Some _ _ _ Hget) as [Hin Hid].
  unfold get_current_user in *.
  destruct (jwt_decode lib utcnow token _ _) as [payload|e]; [|by destruct (is_JWTError e)].
  destruct (TokenPayload_sub str_is_int payload) as [[sub|]|]; try discriminate.
  destruct (get_by_email db sub) as [found|] eqn:Hfound; [|discriminate].
  injection Hcur as ->.
  pose proof (get_by_email_Some _ _ _ Hfound) as [_ Hemail].
  assert (Hgone : get_by_email (delete_row user_id db) sub = None).
  { apply get_by_email_None, Forall_forall. intros row Hrow Hsame.
    apply delete_row_spec in Hrow as [Hrow Hother].
    pose proof (constraints_ok_unique _ _ _ Hok User_email_unique eq_refl) as Hnd.
    simpl in Hnd.
    assert (row = user).
    { apply (unique_inj (fun r : Entity => getattr r "email") db); try done.
      - unfold getattr. by rewrite Hsame, Hemail.
      - unfold getattr. by rewrite Hsame. }
    congruence. }
  by rewrite Hgone.
Qed.

Lemma deleted_user_token_rejected_witness :
  get_current_user Fake.lib default_settings (fun _ => false) 5000000 [Fake.root]
    (Fake.framed (SECRET_KEY default_settings)
       (Fake.framed "HS256" (Fake.enc_Z 7 "alice@example.com")))
  = Raise (HTTPException 401 "Could not validate credentials").
Proof.
  apply (deleted_user_token_rejected Fake.lib default_settings (fun _ => false)
           5000000 _ 1 Fake.root Fake.alice Fake.users [Fake.root]);
    reflexivity.
Defined.

(* ===================================================================== *)
(** ** The gates of the routes                                            *)
(* ===================================================================== *)



(* ===================================================================== *)
(** ** Updates and the table                                              *)
(* ===================================================================== *)

(** The [email] key of the dump. *)
Lemma model_dump_email (u : UserUpdate) :
  UserUpdate_model_dump_exclude_unset u !! "email" =
    match uu_email u with
    | Some (Some s) => Some (VStr s)
    | Some None => Some VNone
    | None => UserUpdate_model_dump_exclude_unset u !! "email"
    end.
Proof.
  unfold UserUpdate_model_dump_exclude_unset.
  rewrite lookup_dump_field_eq. by destruct (uu_email u) as [[s|]|].
Qed.

Lemma model_dump_email_unset (u : UserUpdate) :
  uu_email u = None -> UserUpdate_model_dump_exclude_unset u !! "email" = None.
Proof.
  intros Hu. unfold UserUpdate_model_dump_exclude_unset.
  rewrite lookup_dump_field_eq, Hu.
  by rewrite !lookup_dump_field_ne, lookup_empty.
Qed.

(** What a returning [CRUDUser.update] on a schema did: the payload that
    reached the generic update has no [id], keeps the [email] key of the
    dump, and carries the new hash when a password was sent. *)
Lemma CRUDUser_update_schema_Ret lib (utcnow : Z) (salt : string)
    (db_obj user : Entity) (user_in : UserUpdate) (db db' : list Entity) :
  CRUDUser_update lib utcnow salt db_obj (inl user_in) db = (Ret user, db') ->
  exists update_data : dict,
    CRUDBase_update User_columns UserUpdate UserUpdate_model_dump_exclude_unset
      utcnow db_obj (inr update_data) db = (Ret user, db')
    /\ update_data !! "id" = None
    /\ update_data !! "email" = UserUpdate_model_dump_exclude_unset user_in !! "email"
    /\ (forall password, uu_password user_in = Some (Some password) ->
          exists hashed,
            get_password_hash lib salt (VStr password) = Ret hashed
            /\ update_data !! "hashed_password" = Some (VStr hashed)).
Proof.
  unfold CRUDUser_update. intros H.
  pose proof (model_dump_password user_in) as Hpw.
  destruct (UserUpdate_model_dump_exclude_unset user_in !! "password")
    as [password|].
  - destruct (get_password_hash lib salt password) as [hashed|e] eqn:Hhash;
      [|discriminate].
    eexists. split; [exact H|]. split; [|split].
    + rewrite lookup_insert_ne, lookup_delete_ne by done.
      apply model_dump_no_id.
    + by rewrite lookup_insert_ne, lookup_delete_ne.
    + intros p Hp. rewrite Hp in Hpw. injection Hpw as ->.
      exists hashed. by rewrite lookup_insert_eq.
  - eexists. split; [exact H|]. split; [apply model_dump_no_id|].
    split; [done|]. intros p Hp. by rewrite Hp in Hpw.
Qed.

(** X18. [PUT /users/me] (the handler behind the gate) touches the
    caller's row only: when it returns, the table has as many rows as
    before, the caller's id finds the returned user, provided the caller
    is what that id found before, and every other id finds what it found
    before. *)
Theorem update_user_me_frame lib (utcnow : Z) (salt : string)
    (user_in : UserUpdate) (current_user user : Entity) (db db' : list Entity)
    (id : Z) :
  current_user !! "id" = Some (VInt id) ->
  update_user_me lib utcnow salt user_in current_user db = (Ret user, db') ->
  length db' = length db
  /\ (CRUDBase_get db id = Some current_user -> CRUDBase_get db' id = Some user)
  /\ (forall other, other ≠ id -> CRUDBase_get db' other = CRUDBase_get db other).
Proof.
  intros Hid H. unfold update_user_me in H.
  apply CRUDUser_update_schema_Ret in H as (update_data & Hupd & Hnoid & _).
  assert (Huid : user !! "id" = Some (VInt id)).
  { rewrite (CRUDBase_update_dict_lookup _ _ _ _ _ _ _ "id" Hupd) by done.
    by rewrite Hid, Hnoid. }
  unfold CRUDBase_update in Hupd.
  apply commit_update_table in Hupd as [[-> [-> _]] | ->]; [done|].
  rewrite Hid. split; [|split].
  - unfold replace_row. by rewrite length_fmap.
  - intros Hget. rewrite CRUDBase_get_replace_row by done.
    rewrite decide_True by done. by rewrite Hget.
  - intros other Hne. rewrite CRUDBase_get_replace_row by done.
    by rewrite decide_False.
Qed.

Lemma update_user_me_frame_witness :
  exists user db',
    update_user_me Fake.lib 1000 "salt" Fake.disable Fake.alice Fake.users
      = (Ret user, db')
    /\ length db' = 2%nat
    /\ CRUDBase_get db' 2 = Some Fake.root.
Proof.
  destruct (update_user_me Fake.lib 1000 "salt" Fake.disable Fake.alice Fake.users)
    as [[user|e] db'] eqn:Hcall.
  2: { assert (Hc : is_Ret (fst (update_user_me Fake.lib 1000 "salt"
                Fake.disable Fake.alice Fake.users)) = true)
         by (vm_compute; reflexivity).
       rewrite Hcall in Hc. discriminate Hc. }
  exists user, db'. split; [reflexivity|].
  destruct (update_user_me_frame Fake.lib 1000 "salt" Fake.disable Fake.alice
              user Fake.users db' 1 eq_refl Hcall) as (Hlen & _ & Hother).
  split; [exact Hlen|]. rewrite Hother by discriminate. reflexivity.
Defined.

(** Looking an email up after [UPDATE ... WHERE id = pk], when the row
    found for the email is the only row with its id. *)
Lemma get_by_email_replace_row (email : string) (old new : Entity)
    (rows : list Entity) :
  (forall row, row ∈ rows -> row !! "id" = old !! "id" -> row = old) ->
  get_by_email rows email = Some old ->
  new !! "email" = Some (VStr email) ->
  get_by_email (replace_row (old !! "id") new rows) email = Some new.
Proof.
  unfold get_by_email, replace_row. intros Huniq Hfind Hnew.
  induction rows as [|row rows IH]; [discriminate|].
  cbn [fmap list_fmap find] in *.
  destruct (bool_decide (row !! "email" = Some (VStr email))) eqn:Hrow.
  - injection Hfind as ->. rewrite decide_True by done.
    by rewrite bool_decide_true.
  - destruct (decide (row !! "id" = old !! "id")) as [Hsame|Hdiff].
    + assert (row = old) as -> by (apply Huniq; [left|done]).
      apply find_some in Hfind as [_ Hold]. congruence.
    + rewrite Hrow. apply IH; [|done].
      intros r Hr. apply Huniq. by right.
Qed.

(** The column [id] of [User] is unique and not nullable. *)
Lemma User_id_unique :
  {| col_name := "id"; col_nullable := false; col_unique := true |}
    ∈ User_columns.
Proof. apply list_elem_of_here. Qed.

Lemma User_hashed_password_not_null :
  {| col_name := "hashed_password"; col_nullable := false; col_unique := false |}
    ∈ User_columns.
Proof. do 4 apply list_elem_of_further. apply list_elem_of_here. Qed.

(** X19. A changed password is the one that logs in. With passlib
    verifying the hashes it makes, on a table that meets its constraints:
    when the caller found for an email sends a new password through
    [PUT /users/me] without changing the email, [authenticate] with the
    email and the new password returns the updated user. *)
Theorem update_password_then_authenticate lib (utcnow : Z) (salt : string)
    (user_in : UserUpdate) (current_user user : Entity) (db db' : list Entity)
    (email new_password : string) :
  passlib_verifies_own_hash lib ->
  constraints_ok User_columns db = true ->
  get_by_email db email = Some current_user ->
  uu_password user_in = Some (Some new_password) ->
  uu_email user_in = None ->
  update_user_me lib utcnow salt user_in current_user db = (Ret user, db') ->
  authenticate lib db' email new_password = Ret (Some user).
Proof.
  intros Hlib Hok Hget Hpw Hnoemail H.
  pose proof (get_by_email_Some _ _ _ Hget) as [Hin Hemail].
  unfold update_user_me in H.
  apply CRUDUser_update_schema_Ret in H
    as (update_data & Hupd & _ & Hmail & Hhash).
  destruct (Hhash new_password Hpw) as (hashed & Hhashed & Hkey).
  rewrite model_dump_email_unset in Hmail by done.
  assert (Huser_email : user !! "email" = Some (VStr email)).
  { rewrite (CRUDBase_update_dict_lookup _ _ _ _ _ _ _ "email" Hupd) by done.
    by rewrite Hemail, Hmail. }
  assert (Huser_hash : getattr user "hashed_password" = VStr hashed).
  { pose proof (constraints_ok_not_null _ _ _ _ Hok Hin
                  User_hashed_password_not_null eq_refl) as Hnn.
    simpl in Hnn. unfold getattr in *.
    rewrite (CRUDBase_update_dict_lookup _ _ _ _ _ _ _ "hashed_password" Hupd)
      by done.
    destruct (current_user !! "hashed_password"); [|done].
    by rewrite Hkey. }
  assert (Hfound : get_by_email db' email = Some user).
  { unfold CRUDBase_update in Hupd.
    apply commit_update_table in Hupd as [[-> [-> _]] | ->]; [done|].
    apply get_by_email_replace_row; try done.
    intros row Hrow Hsame.
    pose proof (constraints_ok_unique _ _ _ Hok User_id_unique eq_refl) as Hnd.
    simpl in Hnd.
    apply (unique_inj (fun r : Entity => getattr r "id") db); try done.
    - unfold getattr. by rewrite Hsame.
    - unfold getattr. rewrite Hsame.
      apply (constraints_ok_not_null _ _ _ _ Hok Hin User_id_unique eq_refl). }
  rewrite authenticate_unfold, Hfound, Huser_hash.
  unfold verify_password. by rewrite (Hlib salt _ hashed Hhashed).
Qed.

Lemma update_password_then_authenticate_witness :
  exists user db',
    update_user_me Fake.lib 1000 "pepper"
      {| uu_email := None; uu_password := Some (Some "new-password-1");
         uu_full_name := None; uu_is_active := None; uu_is_superuser := None |}
      Fake.alice Fake.users = (Ret user, db')
    /\ authenticate Fake.lib db' "alice@example.com" "new-password-1"
       = Ret (Some user).
Proof.
  destruct (update_user_me Fake.lib 1000 "pepper"
      {| uu_email := None; uu_password := Some (Some "new-password-1");
         uu_full_name := None; uu_is_active := None; uu_is_superuser := None |}
      Fake.alice Fake.users) as [[user|e] db'] eqn:Hcall.
  2: { assert (Hc : is_Ret (fst (update_user_me Fake.lib 1000 "pepper"
          {| uu_email := None; uu_password := Some (Some "new-password-1");
             uu_full_name := None; uu_is_active := None;
             uu_is_superuser := None |} Fake.alice Fake.users)) = true)
         by (vm_compute; reflexivity).
       rewrite Hcall in Hc. discriminate Hc. }
  exists user, db'. split; [reflexivity|].
  apply (update_password_then_authenticate Fake.lib 1000 "pepper"
           {| uu_email := None; uu_password := Some (Some "new-password-1");
              uu_full_name := None; uu_is_active := None;
              uu_is_superuser := None |}
           Fake.alice user Fake.users db' "alice@example.com" "new-password-1"
           Fake_verifies_own_hash); [reflexivity..|exact Hcall].
Defined.

Lemma password_reset_round_trip_witness :
  exists token,
    generate_password_reset_token Fake.lib default_settings 0 "alice@example.com"
      = Ret token
    /\ verify_password_reset_token Fake.lib default_settings 1000000 token
       = Ret (VStr "alice@example.com").
Proof.
  apply (password_reset_round_trip Fake.lib default_settings 0 1000000
           "alice@example.com" (Fake_round_trip _ _)).
  vm_compute. discriminate.
Defined.

(** X8. The routes under [/users/me] do not run for an inactive caller:
    when the token resolves to a user whose [is_active] is false,
    [GET /users/me] and [PUT /users/me] end with 400 "Inactive user" and
    the table is as it was, whatever the body of the update. *)
Theorem me_routes_need_active_user lib settings (str_is_int : string -> bool)
    (utcnow : Z) (token : string) (db : list Entity) (user : Entity) :
  get_current_user lib settings str_is_int utcnow db token = Ret user ->
  truthy (is_active user) = false ->
  GET_users_me lib settings str_is_int utcnow token db
    = (Raise (HTTPException 400 "Inactive user"), db)
  /\ forall commit_time salt user_in,
       PUT_users_me lib settings str_is_int utcnow token commit_time salt user_in db
       = (Raise (HTTPException 400 "Inactive user"), db).
Proof.
  intros Hcur Hinactive.
  unfold GET_users_me, PUT_users_me, route, Depends_active_user.
  rewrite Hcur. simpl. unfold get_current_active_user. by rewrite Hinactive.
Qed.

Lemma me_routes_need_active_user_witness :
  GET_users_me Fake.lib default_settings (fun _ => false) 5000000
    (Fake.framed (SECRET_KEY default_settings)
       (Fake.framed "HS256" (Fake.enc_Z 7 "root@example.com"))) Fake.users
  = (Raise (HTTPException 400 "Inactive user"), Fake.users).
Proof.
  apply (me_routes_need_active_user Fake.lib default_settings (fun _ => false)
           5000000 _ Fake.users Fake.root); [reflexivity | vm_compute; reflexivity].
Defined.
